(** * The iDDS Transformer agent: transform lifecycle and status aggregation

    A shallow embedding of [main/lib/idds/agents/transformer/transformer.py]:
    the monitor path ([process_monitor_transform], [fill_new_output_contents],
    [check_output_contents]), the new-transform path ([process_new_transform]),
    the draining of monitor results ([finish_monitor_transforms]), the two
    polling queries and the main loop of [run].

    Python dictionaries with string keys are [gmap string _]; the statistics
    dictionary, whose key order is visible through [list(contents.keys())], is
    an association list.  Calls of the persistence layer ([core_catalog],
    [core_transforms]) that write are recorded, in order, in a log of writes;
    exceptions are values of [PyExc]. *)

From Stdlib Require Import ZArith String List.
From stdpp Require Import base option gmap strings list fin_maps fin_sets.

#[local] Set Warnings "-clear-no-such-hyp".

Open Scope Z_scope.
Open Scope string_scope.
Open Scope list_scope.

(** ** Enumerations of [idds.common.constants] *)

Module ContentStatus.
(** Modelled from the spec: [idds.common.constants.ContentStatus] is not
    part of the sources; the data model gives the content status as the
    enumeration New, Failed, Available, FinalFailed, plus others.  The
    further members are [Other n]. *)
Inductive t : Set := New | Failed | Available | FinalFailed | Other (n : nat).

#[global] Instance eq_dec : EqDecision t.
Proof. solve_decision. Defined.

Definition encode (s : t) : nat :=
  match s with
  | New => 0 | Failed => 1 | Available => 2 | FinalFailed => 3
  | Other n => 4 + n
  end%nat.

Definition decode (n : nat) : t :=
  match n with
  | 0 => New | 1 => Failed | 2 => Available | 3 => FinalFailed
  | S (S (S (S n))) => Other n
  end%nat.

#[global] Instance countable : Countable t.
Proof. refine (inj_countable' encode decode _). by intros []. Defined.
End ContentStatus.

Module CollectionStatus.
(** Modelled from the spec: [idds.common.constants.CollectionStatus] is
    not part of the sources; the data model gives [coll_status] as the
    enumeration New, Open, Update, Updated, Closed, SubClosed, Failed. *)
Inductive t : Set := New | Open | Update | Updated | Closed | SubClosed | Failed.

#[global] Instance eq_dec : EqDecision t.
Proof. solve_decision. Defined.

(** Attribute access [CollectionStatus.<name>]: a name that is not a member
    of the enumeration has no value (Python raises [AttributeError]). *)
Definition getattr (name : string) : option t :=
  if decide (name = "New") then Some New
  else if decide (name = "Open") then Some Open
  else if decide (name = "Update") then Some Update
  else if decide (name = "Updated") then Some Updated
  else if decide (name = "Closed") then Some Closed
  else if decide (name = "SubClosed") then Some SubClosed
  else if decide (name = "Failed") then Some Failed
  else None.
End CollectionStatus.

Module CollectionRelationType.
(** Modelled from the spec: [idds.common.constants.CollectionRelationType]
    is not part of the sources; the data model gives Input, Output, Log. *)
Inductive t : Set := Input | Output | Log.

#[global] Instance eq_dec : EqDecision t.
Proof. solve_decision. Defined.
End CollectionRelationType.

Module TransformStatus.
(** Modelled from the spec: [idds.common.constants.TransformStatus] is not
    part of the sources; the state machine names the states Ready,
    Transforming, Finished, Failed and SubFinished. *)
Inductive t : Set := Ready | Transforming | Finished | Failed | SubFinished.

#[global] Instance eq_dec : EqDecision t.
Proof. solve_decision. Defined.
End TransformStatus.

(** ** Data *)

(** A key of the dictionary returned by [get_content_status_statistics], as
    the aggregator compares it: a [ContentStatus] member, the raw [.value] of
    a member, or an object that is neither.  A member and its raw value are
    different keys, and the raw values of different members differ. *)
Inductive StatKey : Set :=
  | Member (s : ContentStatus.t)
  | Value (s : ContentStatus.t)
  | Foreign (n : nat).

#[export] Instance StatKey_eq_dec : EqDecision StatKey.
Proof. solve_decision. Defined.

Definition StatKey_encode (k : StatKey) : ContentStatus.t + ContentStatus.t + nat :=
  match k with
  | Member s => inl (inl s)
  | Value s => inl (inr s)
  | Foreign n => inr n
  end.

Definition StatKey_decode (x : ContentStatus.t + ContentStatus.t + nat) : StatKey :=
  match x with
  | inl (inl s) => Member s
  | inl (inr s) => Value s
  | inr n => Foreign n
  end.

#[export] Instance StatKey_countable : Countable StatKey.
Proof. refine (inj_countable' StatKey_encode StatKey_decode _). by intros []. Defined.

(** The statistics dictionary, status to count, in insertion order. *)
Definition Stats : Type := list (StatKey * Z).

(** [list(contents.keys())] *)
Definition keys (contents : Stats) : list StatKey := contents.*1.

(** A dictionary is well formed when no key occurs twice. *)
Definition dict_wf (contents : Stats) : Prop := NoDup (keys contents).

(** A value stored in [transform_metadata]. *)
Inductive MVal : Type :=
  | MBool (b : bool)
  | MInt (z : Z)
  | MStats (s : Stats).

(** A value stored in a transform dictionary. *)
Inductive Val : Type :=
  | VNone
  | VInt (z : Z)
  | VStr (s : string)
  | VStatus (s : TransformStatus.t)
  | VDict (m : gmap string MVal).

(** A transform is a dictionary: [transform_id], [status],
    [transform_metadata] and whatever other columns the row has. *)
Abbreviation Transform := (gmap string Val).

Record Collection : Type := mkCollection {
  coll_id : Z;
  relation_type : CollectionRelationType.t;
  coll_status : CollectionStatus.t;
  coll_metadata : gmap string string
}.

Record Content : Type := mkContent {
  content_coll_id : Z;
  content_status : ContentStatus.t
}.

(** What [get_collections_by_request_transform_id] hands back.  The
    new-transform path subscripts it as a dictionary
    request_id -> transform_id -> collections, the monitor path iterates it
    as a sequence of collections; both shapes are values of this type. *)
Inductive Fetched : Type :=
  | FNested (d : list (Z * list (Z * list Collection)))
  | FList (l : list Collection).

(** ** Exceptions, writes and the agent's monad *)

Inductive PyExc : Type :=
  | IDDSException (msg : string)
  | IndexError
  | KeyError (key : Val)
  | TypeError
  | AttributeError (name : string)
  | OtherException (name : string).

(** The writing calls of the persistence layer. *)
Inductive Write : Type :=
  | AddContents (contents : option (list Content))
  | UpdateCollection (coll : Z) (new_coll_status : CollectionStatus.t)
  | UpdateTransform (transform_id : Val) (parameter : gmap string Val).

(** A computation runs on the log of writes made so far and ends with an
    exception or a value, and the log extended by its own writes. *)
Definition M (A : Type) : Type := list Write → (PyExc + A) * list Write.

#[export] Instance M_ret : MRet M := λ A x log, (inr x, log).
#[export] Instance M_bind : MBind M := λ A B f c log,
  match c log with
  | (inl e, log') => (inl e, log')
  | (inr x, log') => f x log'
  end.

Definition raise {A} (e : PyExc) : M A := λ log, (inl e, log).
Definition emit (w : Write) : M unit := λ log, (inr tt, log ++ [w]).
Definition read {A} (f : list Write → A) : M A := λ log, (inr (f log), log).

(** [d[key]] on a dictionary with string keys. *)
Definition getitem {V} (d : gmap string V) (key : string) : M V :=
  match d !! key with
  | Some v => mret v
  | None => raise (KeyError (VStr key))
  end.

(** [l[0]] *)
Definition index0 {A} (l : list A) : M A :=
  match l with
  | x :: _ => mret x
  | [] => raise IndexError
  end.

(** [d[key]] on a dictionary with integer keys. *)
Definition getitem_int {V} (d : list (Z * V)) (key : Z) : M V :=
  match list_find (λ kv, kv.1 = key) d with
  | Some (_, (_, v)) => mret v
  | None => raise (KeyError (VInt key))
  end.

(** [v[key]] on a value: only a dictionary can be subscripted by a string. *)
Definition subscript (v : Val) (key : string) : M MVal :=
  match v with
  | VDict m => getitem m key
  | _ => raise TypeError
  end.

(** [key == v] for an integer key. *)
Definition eq_int (key : Z) (v : Val) : bool :=
  match v with
  | VInt z => bool_decide (key = z)
  | _ => false
  end.

(** Truth value of a dictionary and of a metadata value. *)
Definition truthy_dict {V} (d : gmap string V) : bool := bool_decide (size d ≠ 0%nat).
Definition truthy (v : MVal) : bool :=
  match v with
  | MBool b => b
  | MInt z => bool_decide (z ≠ 0)
  | MStats s => bool_decide (length s ≠ 0%nat)
  end.

(** [for x in l: body(x)] *)
Fixpoint for_each {A} (l : list A) (body : A → M unit) : M unit :=
  match l with
  | [] => mret tt
  | x :: l' => body x ≫= λ _, for_each l' body
  end.

(** [for x in l: st = body(st, x)], a loop that updates local variables. *)
Fixpoint for_fold {A S} (l : list A) (body : S → A → M S) (st : S) : M S :=
  match l with
  | [] => mret st
  | x :: l' => body st x ≫= for_fold l' body
  end.

(** [for x in l: ...] where the body may [return]: [Some r] leaves the loop
    with [r]; a loop that runs to its end gives [None]. *)
Fixpoint for_return {A B} (l : list A) (body : A → M (option B)) : M (option B) :=
  match l with
  | [] => mret None
  | x :: l' =>
      body x ≫= λ r,
        match r with
        | Some b => mret (Some b)
        | None => for_return l' body
        end
  end.

Definition update_collection (coll : Z) (s : CollectionStatus.t) : M unit :=
  emit (UpdateCollection coll s).
Definition add_contents (contents : option (list Content)) : M unit :=
  emit (AddContents contents).
Definition update_transform (transform_id : Val) (parameter : gmap string Val) : M unit :=
  emit (UpdateTransform transform_id parameter).

(** ** The Transformer agent *)

Section Transformer.

(** The reading calls of [core_catalog] are not part of the sources: they
    are parameters here.  Each answers from the persisted state as it is
    after the writes made so far. *)
Variable get_collections_by_request_transform_id : list Write → Val → Fetched.
Variable get_content_status_statistics : list Write → Z → Stats.

(** The message of the configuration error. *)
Definition unsupported : string :=
  "IDDS currently doesn't support transforms with more than one input or output".

(** [len(input_collections) > 1 or len(output_collections) > 1 or
    len(log_collections) > 1] *)
Definition more_than_one (input_collections output_collections log_collections : list Collection) : bool :=
  bool_decide (1 < length input_collections)%nat
  || bool_decide (1 < length output_collections)%nat
  || bool_decide (1 < length log_collections)%nat.

(** The body is [pass]: the call gives [None]. *)
Definition get_new_output_contents (transform : Transform)
    (input_collection output_collection : Collection) : option (list Content) :=
  None.

(** The body is [pass]. *)
Definition generate_processing (transform : Transform)
    (input_collections output_collections log_collections : list Collection) : M unit :=
  mret tt.

Definition fill_new_output_contents (transform : Transform)
    (input_collections output_collections log_collections : list Collection) : M unit :=
  if more_than_one input_collections output_collections log_collections
  then raise (IDDSException unsupported)
  else
    input_collection ← index0 input_collections;
    output_collection ← index0 output_collections;
    if bool_decide (coll_status input_collection = CollectionStatus.Update) then
      let new_out_contents :=
        get_new_output_contents transform input_collection output_collection in
      add_contents new_out_contents;;
      ddm_status ← getitem (coll_metadata input_collection) "ddm_status";
      let parameters :=
        if bool_decide (ddm_status = "closed")
        then CollectionStatus.Closed else CollectionStatus.Open in
      update_collection (coll_id input_collection) parameters;;
      update_collection (coll_id output_collection) CollectionStatus.Updated
    else mret tt.

(** [transform['transform_metadata']['status_statistics'] = contents] *)
Definition set_status_statistics (transform : Transform) (contents : Stats) : M Transform :=
  match transform !! "transform_metadata" with
  | None => raise (KeyError (VStr "transform_metadata"))
  | Some (VDict metadata) =>
      mret (<["transform_metadata" :=
                VDict (<["status_statistics" := MStats contents]> metadata)]> transform)
  | Some _ => raise TypeError
  end.

(** [transform['status'] = status] followed by the assignment of the
    statistics. *)
Definition set_status (transform : Transform) (status : TransformStatus.t)
    (contents : Stats) : M Transform :=
  set_status_statistics (<["status" := VStatus status]> transform) contents.

Definition check_output_contents (transform : Transform)
    (input_collections output_collections log_collections : list Collection) : M Transform :=
  if more_than_one input_collections output_collections log_collections
  then raise (IDDSException unsupported)
  else
    output_collection ← index0 output_collections;
    contents ← read (λ log, get_content_status_statistics log (coll_id output_collection));
    let content_status_keys := keys contents in
    if bool_decide (content_status_keys = [Member ContentStatus.Available])
       || bool_decide (content_status_keys = [Value ContentStatus.Available])
    then
      update_collection (coll_id output_collection) CollectionStatus.Closed;;
      set_status transform TransformStatus.Finished contents
    else if bool_decide (content_status_keys = [Member ContentStatus.FinalFailed])
            || bool_decide (content_status_keys = [Value ContentStatus.FinalFailed])
    then
      update_collection (coll_id output_collection) CollectionStatus.Failed;;
      set_status transform TransformStatus.Failed contents
    else if bool_decide (length content_status_keys = 2%nat)
            && (bool_decide (Member ContentStatus.FinalFailed ∈ content_status_keys)
                || bool_decide (Value ContentStatus.FinalFailed ∈ content_status_keys))
            && (bool_decide (Member ContentStatus.Available ∈ content_status_keys)
                || bool_decide (Value ContentStatus.Available ∈ content_status_keys))
    then
      update_collection (coll_id output_collection) CollectionStatus.SubClosed;;
      set_status transform TransformStatus.SubFinished contents
    else if bool_decide (Member ContentStatus.New ∈ content_status_keys)
            || bool_decide (Value ContentStatus.New ∈ content_status_keys)
            || bool_decide (Member ContentStatus.Failed ∈ content_status_keys)
            || bool_decide (Value ContentStatus.Failed ∈ content_status_keys)
    then
      generate_processing transform input_collections output_collections log_collections;;
      set_status transform TransformStatus.Transforming contents
    else mret transform.

(** [for coll in collections], with [coll['relation_type']] read in the
    body: a sequence of collections is walked as it is; a dictionary is
    walked by its keys, and subscripting the first key raises. *)
Definition iterate_collections (collections : Fetched) : M (list Collection) :=
  match collections with
  | FList l => mret l
  | FNested [] => mret []
  | FNested (_ :: _) => raise TypeError
  end.

Definition process_monitor_transform (transform : Transform) : M (option Transform) :=
  transform_id ← getitem transform "transform_id";
  collections ← read (λ log, get_collections_by_request_transform_id log transform_id);
  colls ← iterate_collections collections;
  let input_collections :=
    filter (λ coll, relation_type coll = CollectionRelationType.Input) colls in
  let output_collections :=
    filter (λ coll, relation_type coll = CollectionRelationType.Output) colls in
  let log_collections :=
    filter (λ coll, relation_type coll = CollectionRelationType.Log) colls in
  for_each input_collections (λ coll,
    if bool_decide (coll_status coll = CollectionStatus.Updated)
    then fill_new_output_contents transform input_collections output_collections log_collections
    else mret tt);;
  for_return output_collections (λ coll,
    match CollectionStatus.getattr "Updated1" with
    | None => raise (AttributeError "Updated1")
    | Some updated1 =>
        if bool_decide (coll_status coll = updated1)
        then
          ret ← check_output_contents transform input_collections output_collections log_collections;
          mret (Some ret)
        else mret None
    end).

(** [finish_monitor_transforms]: the queue holds what the monitor tasks
    returned, a transform dictionary or [None]. *)
Definition monitor_parameter (transform : Transform) : gmap string Val :=
  foldl (λ parameter key,
           match transform !! key with
           | Some v => <[key := v]> parameter
           | None => parameter
           end) ∅ ["status"; "transform_metadata"].

Definition finish_monitor_transforms (monitor_output_queue : list (option Transform)) : M unit :=
  for_each monitor_output_queue (λ item,
    match item with
    | None => raise TypeError
    | Some transform =>
        let parameter := monitor_parameter transform in
        transform_id ← getitem transform "transform_id";
        update_transform transform_id parameter
    end).

(** ** The new-transform path *)

(** [generate_transform_outputs] reads names that its body never binds
    and is left abstract: what it returns, and what it writes, is a
    parameter. *)
Variable Outputs : Type.
Variable generate_transform_outputs : Transform → list Collection → M Outputs.

(** The result of [process_new_transform]: the empty dictionary or the
    dictionary built by [generate_transform_outputs]. *)
Inductive NewResult : Type :=
  | EmptyDict
  | OutputsDict (o : Outputs).

(** The two nested loops over [ret_collections], with the local
    variables [(collections, ret_transform)] as loop state.  Both loops
    walk the keys of [ret_collections]. *)
Definition find_collections (transform : Transform) (ret_collections : Fetched)
    : M (list Collection * option Transform) :=
  match ret_collections with
  | FNested d =>
      for_fold d.*1 (λ st request_id,
        for_fold d.*1 (λ st transform_id,
          tid ← getitem transform "transform_id";
          if eq_int transform_id tid then
            by_transform ← getitem_int d request_id;
            collections ← getitem_int by_transform transform_id;
            mret (collections, Some transform)
          else mret st) st) ([], None)
  | FList l =>
      for_fold l (λ st _,
        for_fold l (λ st _,
          tid ← getitem transform "transform_id";
          mret st) st) ([], None)
  end.

Definition process_new_transform (transform : Transform) : M NewResult :=
  transform_id ← getitem transform "transform_id";
  ret_collections ← read (λ log, get_collections_by_request_transform_id log transform_id);
  found ← find_collections transform ret_collections;
  let collections := found.1 in
  match found.2 with
  | Some ret_transform =>
      if truthy_dict ret_transform then
        metadata ← getitem ret_transform "transform_metadata";
        changed ← subscript metadata "input_collection_changed";
        if truthy changed then
          o ← generate_transform_outputs transform collections;
          mret (OutputsDict o)
        else mret EmptyDict
      else mret EmptyDict
  | None => mret EmptyDict
  end.

(** ** The polling queries *)

(** [core_transforms.get_transforms_by_status(status, period)] is not
    part of the sources: a parameter. *)
Variable get_transforms_by_status :
  list TransformStatus.t → option Z → list Transform.

Definition get_new_transforms : list Transform :=
  let transform_status := [TransformStatus.Ready] in
  get_transforms_by_status transform_status None.

Definition get_monitor_transforms : list Transform :=
  let transform_status := [TransformStatus.Transforming] in
  get_transforms_by_status transform_status (Some 3600).

End Transformer.

Arguments EmptyDict {Outputs}.
Arguments OutputsDict {Outputs} o.

(** ** The persisted Transform table *)

Module Gateway.

(** Modelled from the spec: [core_transforms.update_transform] is not part
    of the sources.  The persistence gateway's
    [update_transform(transform_id, fields)] is a field-level update: the
    fields named in [fields] are overwritten in the row with that id, and
    nothing else changes.  The other writes do not touch the table. *)
Definition apply_write (table : gmap Z Transform) (w : Write) : gmap Z Transform :=
  match w with
  | UpdateTransform (VInt transform_id) parameter =>
      alter (λ row, parameter ∪ row) transform_id table
  | _ => table
  end.

Definition apply_writes (table : gmap Z Transform) (ws : list Write) : gmap Z Transform :=
  foldl apply_write table ws.

Definition status_in (status : list TransformStatus.t) (row : Transform) : bool :=
  match row !! "status" with
  | Some (VStatus s) => bool_decide (s ∈ status)
  | _ => false
  end.

Definition unchanged_for (now : Z) (period : option Z) (row : Transform) : bool :=
  match period with
  | None => true
  | Some seconds =>
      match row !! "updated_at" with
      | Some (VInt updated_at) => bool_decide (updated_at + seconds ≤ now)%Z
      | _ => false
      end
  end.

(** Modelled from the spec: [core_transforms.get_transforms_by_status] is
    not part of the sources.  The gateway's
    [get_transforms_by_status(status_set, period?)] gives the rows whose
    status is in the set; [period] restricts them to the rows unchanged
    for at least that many seconds.  A row is handed out as a dictionary
    that carries its [transform_id]. *)
Definition get_transforms_by_status (table : gmap Z Transform) (now : Z)
    (status : list TransformStatus.t) (period : option Z) : list Transform :=
  (λ kv, <["transform_id" := VInt kv.1]> kv.2) <$>
    filter (λ kv, status_in status kv.2 && unchanged_for now period kv.2)
           (map_to_list table).

End Gateway.

(** ** The main loop of [run] *)

(** What a block of statements can raise: an instance of [Exception]
    (the agent's [IDDSException] or any other), [KeyboardInterrupt], or
    another [BaseException] outside [Exception] such as [SystemExit]. *)
Inductive Raisable : Type :=
  | Exc (e : PyExc)
  | KeyboardInterrupt
  | BaseExc (name : string).

Inductive Outcome : Type :=
  | Completed
  | Raised (r : Raisable).

Inductive LogRecord : Type :=
  | LogInfo (text : string)
  | LogError (text : string) (about : PyExc)
  | LogCritical (text : string) (about : PyExc).

(** How [run] is left, or [Looping] when the iterations given to the model
    are used up while the loop is still going. *)
Inductive RunEnd : Type :=
  | Returned
  | Stopped
  | Propagated (r : Raisable)
  | Looping.

(** [finish_new_transforms]: every queued result is handled inside
    [try ... except Exception], whose handler logs the exception and the
    traceback; the loop over the queue then goes on.  The statements of the
    [try] block that follow the info record are the parameter [handle]. *)
Fixpoint finish_new_transforms {A} (handle : A → Outcome) (new_output_queue : list A)
    (log : list LogRecord) : Outcome * list LogRecord :=
  match new_output_queue with
  | [] => (Completed, log)
  | ret :: queue =>
      let log := log ++ [LogInfo "Main thread finishing processing transform: "] in
      match handle ret with
      | Completed => finish_new_transforms handle queue log
      | Raised (Exc ex) =>
          finish_new_transforms handle queue
            (log ++ [LogError "" ex; LogError "traceback" ex])
      | Raised r => (Raised r, log)
      end
  end.

(** The handlers of the [try] inside the [while] loop. *)
Definition handler (e : PyExc) : LogRecord :=
  match e with
  | IDDSException _ => LogError "Main thread IDDSException: " e
  | _ => LogCritical "Main thread exception: " e
  end.

(** The [while not self.graceful_stop.is_set()] loop.  An iteration is
    given by what [is_set()] answers at the loop test and by the outcome of
    [prepare_finish_tasks(); sleep_for_tasks()]. *)
Fixpoint main_loop (iterations : list (bool * Outcome)) (log : list LogRecord)
    : RunEnd * list LogRecord :=
  match iterations with
  | [] => (Looping, log)
  | (is_set, work) :: later =>
      if is_set then (Returned, log)
      else
        match work with
        | Completed => main_loop later log
        | Raised (Exc error) => main_loop later (log ++ [handler error])
        | Raised KeyboardInterrupt => (Stopped, log)
        | Raised r => (Propagated r, log)
        end
  end.

(** [run]: [startup] is the outcome of [load_plugins()] and of the
    submission of the worker tasks; only [KeyboardInterrupt] is caught
    around the whole body, and answered by [self.stop()]. *)
Definition run (startup : Outcome) (iterations : list (bool * Outcome))
    : RunEnd * list LogRecord :=
  let log := [LogInfo "Starting main thread"] in
  match startup with
  | Completed => main_loop iterations log
  | Raised KeyboardInterrupt => (Stopped, log)
  | Raised r => (Propagated r, log)
  end.

(** ** The aggregator as the specification words it *)

(** What the aggregator decides for a collection: the next status of the transform, with
    the status written to the output collection if one is written, or no
    transition. *)
Inductive Action : Type :=
  | Transition (status : TransformStatus.t) (coll : option CollectionStatus.t)
  | NoTransition.

(** Exact precedence, first match wins, on the set of distinct statuses
    present; the counts play no part. *)
Definition aggregator_spec (statuses : gset ContentStatus.t) : Action :=
  if decide (statuses = {[ContentStatus.Available]}) then
    Transition TransformStatus.Finished (Some CollectionStatus.Closed)
  else if decide (statuses = {[ContentStatus.FinalFailed]}) then
    Transition TransformStatus.Failed (Some CollectionStatus.Failed)
  else if decide (statuses = {[ContentStatus.Available; ContentStatus.FinalFailed]}) then
    Transition TransformStatus.SubFinished (Some CollectionStatus.SubClosed)
  else if decide (statuses ∩ {[ContentStatus.New; ContentStatus.Failed]} ≠ ∅) then
    Transition TransformStatus.Transforming None
  else NoTransition.

(** The same precedence on the set of keys, for a dictionary whose keys
    need not share one spelling: a status is present as the member or as
    its raw value. *)
Definition aggregator_on_keys (present : gset StatKey) : Action :=
  let A := ContentStatus.Available in
  let F := ContentStatus.FinalFailed in
  if decide (present = {[Member A]} ∨ present = {[Value A]}) then
    Transition TransformStatus.Finished (Some CollectionStatus.Closed)
  else if decide (present = {[Member F]} ∨ present = {[Value F]}) then
    Transition TransformStatus.Failed (Some CollectionStatus.Failed)
  else if decide (present = {[Member A; Member F]} ∨ present = {[Member A; Value F]}
                  ∨ present = {[Value A; Member F]} ∨ present = {[Value A; Value F]}) then
    Transition TransformStatus.SubFinished (Some CollectionStatus.SubClosed)
  else if decide (present ∩ {[Member ContentStatus.New; Value ContentStatus.New;
                              Member ContentStatus.Failed; Value ContentStatus.Failed]} ≠ ∅) then
    Transition TransformStatus.Transforming None
  else NoTransition.

(** The transform after a transition: the status is set and the statistics
    are stored in the metadata. *)
Definition transitioned (transform : Transform) (metadata : gmap string MVal)
    (status : TransformStatus.t) (contents : Stats) : Transform :=
  <["transform_metadata" := VDict (<["status_statistics" := MStats contents]> metadata)]>
    (<["status" := VStatus status]> transform).

Definition collection_write (coll : Z) (s : option CollectionStatus.t) : list Write :=
  match s with
  | Some s => [UpdateCollection coll s]
  | None => []
  end.

(** The chain of conditions of [check_output_contents], on the list of keys. *)
Definition branch (content_status_keys : list StatKey) : Action :=
  if bool_decide (content_status_keys = [Member ContentStatus.Available])
     || bool_decide (content_status_keys = [Value ContentStatus.Available])
  then Transition TransformStatus.Finished (Some CollectionStatus.Closed)
  else if bool_decide (content_status_keys = [Member ContentStatus.FinalFailed])
          || bool_decide (content_status_keys = [Value ContentStatus.FinalFailed])
  then Transition TransformStatus.Failed (Some CollectionStatus.Failed)
  else if bool_decide (length content_status_keys = 2%nat)
          && (bool_decide (Member ContentStatus.FinalFailed ∈ content_status_keys)
              || bool_decide (Value ContentStatus.FinalFailed ∈ content_status_keys))
          && (bool_decide (Member ContentStatus.Available ∈ content_status_keys)
              || bool_decide (Value ContentStatus.Available ∈ content_status_keys))
  then Transition TransformStatus.SubFinished (Some CollectionStatus.SubClosed)
  else if bool_decide (Member ContentStatus.New ∈ content_status_keys)
          || bool_decide (Value ContentStatus.New ∈ content_status_keys)
          || bool_decide (Member ContentStatus.Failed ∈ content_status_keys)
          || bool_decide (Value ContentStatus.Failed ∈ content_status_keys)
  then Transition TransformStatus.Transforming None
  else NoTransition.

(** The spellings the aggregator accepts for the keys of a dictionary
    typed status -> count: every key a member, or every key a raw value. *)
Definition spelling (spell : ContentStatus.t → StatKey) : Prop :=
  spell = Member ∨ spell = Value.

(** The answer of [get_collections_by_request_transform_id] to a query by
    [transform_id]: in the nested shape, every request's dictionary has the
    queried transform among its keys. *)
Definition fetched_for (transform_id : Z) (fetched : Fetched) : Prop :=
  match fetched with
  | FNested d => Forall (λ by_request, transform_id ∈ by_request.2.*1) d
  | FList _ => True
  end.

(** The writes a computation adds to the log it starts from. *)
Definition writes_of {A} (c : M A) (log : list Write) : list Write :=
  drop (length log) (c log).2.

(** The write that [finish_monitor_transforms] makes for one result. *)
Definition monitor_write (transform : Transform) : Write :=
  UpdateTransform (default VNone (transform !! "transform_id"))
                  (monitor_parameter transform).

(** An iteration after which the loop goes on: the stop signal is not set
    and the work completes or raises an instance of [Exception]. *)
Definition continues (iteration : bool * Outcome) : Prop :=
  iteration.1 = false
  ∧ (iteration.2 = Completed ∨ ∃ e, iteration.2 = Raised (Exc e)).

(** The instances of [Exception] raised by the work of the iterations. *)
Definition raised_exceptions (iterations : list (bool * Outcome)) : list PyExc :=
  omap (λ iteration,
          match iteration.2 with
          | Raised (Exc e) => Some e
          | _ => None
          end) iterations.

(** The work of an iteration raises nothing outside [Exception] other than
    [KeyboardInterrupt]. *)
Definition ordinary (work : Outcome) : Prop :=
  ∀ name, work ≠ Raised (BaseExc name).

(** ** Sample data *)

Module Sample.
Definition metadata : gmap string MVal :=
  <["input_collection_changed" := MBool false]> ∅.

Definition transform (status : TransformStatus.t) : Transform :=
  <["transform_id" := VInt 7]>
    (<["status" := VStatus status]>
       (<["transform_metadata" := VDict metadata]> ∅)).

Definition input (s : CollectionStatus.t) : Collection :=
  mkCollection 1 CollectionRelationType.Input s (<["ddm_status" := "closed"]> ∅).

Definition output (s : CollectionStatus.t) : Collection :=
  mkCollection 2 CollectionRelationType.Output s ∅.

Definition log_collection : Collection :=
  mkCollection 3 CollectionRelationType.Log CollectionStatus.Open ∅.

(** A gateway that answers every query with the same collections, and
    one that answers with the same statistics. *)
Definition collections (l : list Collection) : list Write → Val → Fetched :=
  λ _ _, FList l.
Definition statistics (contents : Stats) : list Write → Z → Stats :=
  λ _ _, contents.

(** The same collections in the nested shape, under request 7 and the
    sample transform's id. *)
Definition nested (l : list Collection) : list Write → Val → Fetched :=
  λ _ _, FNested [(7, [(7, l)])].

(** Statistics dictionaries. *)
Definition available : Stats := [(Member ContentStatus.Available, 5)].
Definition mixed : Stats :=
  [(Member ContentStatus.FinalFailed, 1); (Member ContentStatus.Available, 2)].
Definition other : Stats := [(Member (ContentStatus.Other 0), 3)].

(** Four iterations of the main loop: the work raises [IDDSException],
    then [TypeError], then completes, and then the stop signal is set. *)
Definition iterations : list (bool * Outcome) :=
  [(false, Raised (Exc (IDDSException unsupported)));
   (false, Raised (Exc TypeError));
   (false, Completed);
   (true, Completed)].

(** A persisted table with the sample transform, last touched at time 0,
    under its id. *)
Definition table (status : TransformStatus.t) : gmap Z Transform :=
  <[7 := <["updated_at" := VInt 0]> (<["priority" := VInt 3]> (transform status))]> ∅.
End Sample.

(** ** Outcomes read off the code *)

(** The outcome of the monitor path on a sequence of collections. *)
Definition monitor_outcome (colls : list Collection) : PyExc + option Transform :=
  let ics := filter (λ coll, relation_type coll = CollectionRelationType.Input) colls in
  let ocs := filter (λ coll, relation_type coll = CollectionRelationType.Output) colls in
  let lcs := filter (λ coll, relation_type coll = CollectionRelationType.Log) colls in
  if bool_decide (Exists (λ coll, coll_status coll = CollectionStatus.Updated) ics) then
    if more_than_one ics ocs lcs then inl (IDDSException unsupported)
    else if bool_decide (ocs = []) then inl IndexError
    else inl (AttributeError "Updated1")
  else if bool_decide (ocs = []) then inr None
  else inl (AttributeError "Updated1").

(** What a queued item that cannot be written makes
    [finish_monitor_transforms] raise. *)
Definition bad_result (item : option Transform) : option PyExc :=
  match item with
  | None => Some TypeError
  | Some transform =>
      match transform !! "transform_id" with
      | None => Some (KeyError (VStr "transform_id"))
      | Some _ => None
      end
  end.

(** ** More sample data *)

Module Fixture.
Definition changed_metadata : gmap string MVal :=
  <["input_collection_changed" := MBool true]> ∅.

(** The sample transform with a changed input collection. *)
Definition changed_transform (status : TransformStatus.t) : Transform :=
  <["transform_id" := VInt 7]>
    (<["status" := VStatus status]>
       (<["transform_metadata" := VDict changed_metadata]> ∅)).

(** A transform dictionary with nothing but its id. *)
Definition bare_transform : Transform := <["transform_id" := VInt 7]> ∅.

(** A gateway that answers with one request, 3, which is not the id of
    the sample transform. *)
Definition other_request (l : list Collection) : list Write → Val → Fetched :=
  λ _ _, FNested [(3, [(7, l)])].

(** A gateway that answers with two requests, the second of which has the
    id of the sample transform. *)
Definition two_requests (first last : list Collection) : list Write → Val → Fetched :=
  λ _ _, FNested [(3, [(7, first)]); (7, [(7, last)])].
End Fixture.

(** * Further modules of the sources *)

Module Session.
(** ** [orm/base/session.py]: the retry predicate *)

(** [s.find(sub)]: the lowest index at which [sub] occurs in [s], or -1. *)
Definition find (s sub : string) : Z :=
  match String.index 0 sub s with
  | Some n => Z.of_nat n
  | None => -1
  end.

(** [sub] occurs in [s]. *)
Definition occurs_in (sub s : string) : Prop :=
  ∃ before after, s = String.append before (String.append sub after).

(** An element of [exception.args]: a string or an object of another type. *)
Inductive Arg : Type :=
  | AStr (s : string)
  | AObject.

(** An exception as the predicate looks at it: the two [isinstance] tests
    and [args]. *)
Record DbError : Type := mkDbError {
  is_OperationalError : bool;
  is_DatabaseException : bool;
  args : list Arg
}.

(** [for err_code in conn_err_codes: if exception.args[0].find(err_code)
    != -1: return True]; [false] stands for a loop that ran to its end. *)
Fixpoint find_err_code (exception_args : list Arg) (conn_err_codes : list string)
    : PyExc + bool :=
  match conn_err_codes with
  | [] => inr false
  | err_code :: rest =>
      match exception_args with
      | [] => inl IndexError
      | AStr message :: _ =>
          if bool_decide (find message err_code ≠ -1) then inr true
          else find_err_code exception_args rest
      | AObject :: _ => inl (AttributeError "find")
      end
  end.

Definition operational_err_codes : list string :=
  ["2002"; "2003"; "2006"; "ORA-00028"; "ORA-01012"; "ORA-03113"; "ORA-03114";
   "ORA-03135"; "ORA-25408"].

Definition database_err_codes : list string :=
  ["server closed the connection unexpectedly"; "closed the connection"].

Definition retry_if_db_connection_error (exception : DbError) : PyExc + bool :=
  match (if is_OperationalError exception
         then find_err_code (args exception) operational_err_codes
         else inr false) with
  | inl e => inl e
  | inr true => inr true
  | inr false =>
      match (if is_DatabaseException exception
             then find_err_code (args exception) database_err_codes
             else inr false) with
      | inl e => inl e
      | inr true => inr true
      | inr false => inr false
      end
  end.

(** ** [orm/base/session.py]: the session decorators *)

(** What a decorated call does to the session, in order. *)
Inductive SessionEvent : Type :=
  | GetSession
  | Commit
  | PrintError
  | Rollback
  | Remove.

#[export] Instance SessionEvent_eq_dec : EqDecision SessionEvent.
Proof. solve_decision. Defined.

(** How a call ends: it returns a value or raises an exception. *)
Inductive Ending (A Exn : Type) : Type :=
  | Returns (result : A)
  | Raises (error : Exn).
Arguments Returns {A Exn} result.
Arguments Raises {A Exn} error.

Section Decorators.
(** The exceptions are objects of a type [Exn], of which the decorators
    use the two [isinstance] tests of their [except] clauses and
    [str(error)]; [DatabaseException] and [IDDSException] build the
    exceptions of [idds.common.exceptions], which is not part of the
    sources.  [session.rollback()] and [session.remove()] are taken to
    return.  The definitions are the wrapped functions [new_funct]; the
    [retry] wrapper of the [retrying] library around them is not part of
    them. *)
Variables (A Exn : Type).
Variable is_TimeoutError is_DatabaseError : Exn → bool.
Variable str : Exn → string.
Variable DatabaseException : string → Exn.
Variable IDDSException : string → Exn.

(** The [except] clauses of a decorator followed by its [finally]:
    [print_error] tells whether the first two clauses print the error. *)
Definition except_finally (print_error : bool) (error : Exn)
    : Ending A Exn * list SessionEvent :=
  if is_TimeoutError error then
    (Raises (DatabaseException (str error)),
     (if print_error then [PrintError] else []) ++ [Rollback; Remove])
  else if is_DatabaseError error then
    (Raises (DatabaseException (str error)),
     (if print_error then [PrintError] else []) ++ [Rollback; Remove])
  else (Raises error, [Rollback; Remove]).

(** [transactional_session(function)(...)]: [session] tells
    whether [kwargs.get('session')] is true, [function] is how the call
    of the decorated function ends and [commit] what [session.commit()]
    raises, if it raises. *)
Definition transactional_session (session : bool) (function : Ending A Exn)
    (commit : option Exn) : Ending A Exn * list SessionEvent :=
  if negb session then
    match function with
    | Returns result =>
        match commit with
        | None => (Returns result, [GetSession; Commit; Remove])
        | Some error =>
            let handled := except_finally true error in
            (handled.1, [GetSession; Commit] ++ handled.2)
        end
    | Raises error =>
        let handled := except_finally true error in
        (handled.1, [GetSession] ++ handled.2)
    end
  else (function, []).

(** [read_session(function)(...)]: [generator] tells whether
    [isgeneratorfunction(function)] is true. *)
Definition read_session (generator session : bool) (function : Ending A Exn)
    : Ending A Exn * list SessionEvent :=
  if generator then
    (Raises (IDDSException
               "read_session decorator should not be used with generator. Use stream_session instead."),
     [])
  else if negb session then
    match function with
    | Returns result => (Returns result, [GetSession; Remove; Remove])
    | Raises error =>
        let handled := except_finally false error in
        (handled.1, [GetSession] ++ handled.2)
    end
  else (function, []).
End Decorators.

End Session.

(** Sample exceptions for the decorators. *)
Module SessionSample.
Inductive Error : Type :=
  | SqlTimeout (text : string)
  | SqlDatabaseError (text : string)
  | IddsDatabaseException (text : string)
  | IddsException (text : string)
  | OtherError (text : string).

Definition is_TimeoutError (e : Error) : bool :=
  match e with SqlTimeout _ => true | _ => false end.
Definition is_DatabaseError (e : Error) : bool :=
  match e with SqlDatabaseError _ => true | _ => false end.
Definition str (e : Error) : string :=
  match e with
  | SqlTimeout text | SqlDatabaseError text | IddsDatabaseException text
  | IddsException text | OtherError text => text
  end.

(** An [OperationalError] whose message has the MySQL code 2006. *)
Definition gone_away : Session.DbError :=
  Session.mkDbError true false
    [Session.AStr "(2006, 'MySQL server has gone away')"].
End SessionSample.

(** ** [rest/v1/utils.py]: conversion of old requests *)

Module RequestType.
(** [idds.common.constants.RequestType] is not part of the sources: the
    members the conversion names are Workflow, StageIn and
    HyperParameterOpt; the further members are [Other n]. *)
Inductive t : Set := Workflow | StageIn | HyperParameterOpt | Other (n : nat).

#[global] Instance eq_dec : EqDecision t.
Proof. solve_decision. Defined.
End RequestType.

(** A computation that returns or raises, without writes. *)
Definition Try (A : Type) : Type := (PyExc + A)%type.

#[export] Instance Try_ret : MRet Try := λ A x, inr x.
#[export] Instance Try_bind : MBind Try := λ A B f c,
  match c with
  | inl e => inl e
  | inr x => f x
  end.

Definition throw {A} (e : PyExc) : Try A := inl e.

Module Request.
Section Convert.
(** The workflow classes ([idds.workflow.workflow.Workflow],
    [ATLASStageinWork], [ATLASHPOWork]) are not part of the sources: the
    objects are values of the types [Wf] and [Work] and the constructors
    and methods the conversion calls are parameters, taken to return.
    [value] gives the raw [.value] of a [RequestType] member. *)
Variables (Wf Work : Type).
Variable value : RequestType.t → Z.

(** A value that is not a dictionary: [None], an integer, a string, a
    [RequestType] member, [RequestStatus.New], a workflow, or an object of
    another type, taken to be true and to be neither a container nor
    subscriptable. *)
Inductive Atom : Type :=
  | ANone
  | AInt (z : Z)
  | AStr (s : string)
  | AType (t : RequestType.t)
  | AStatusNew
  | AWorkflow (wf : Wf)
  | AObject (n : nat).

(** A value of the request dictionary: an atom or a dictionary of atoms. *)
Inductive Val : Type :=
  | Atomic (a : Atom)
  | Dict (m : gmap string Atom).

(** The arguments the conversion passes to the two work classes. *)
Record StageinArgs : Type := mkStageinArgs {
  primary_input_collection : Val * Val;
  output_collections : Val * string;
  max_waiting_time : Atom;
  src_rse : Atom;
  dest_rse : Atom;
  rule_id : Atom
}.

Record HPOArgs : Type := mkHPOArgs {
  executable : Atom;
  arguments : Atom;
  parameters : Atom;
  sandbox : Atom;
  method : Atom;
  container_workdir : Atom;
  output_json : Atom;
  opt_space : Atom;
  initial_points : Atom;
  max_points : Atom;
  num_points_per_iteration : Atom
}.

Variable ATLASStageinWork : StageinArgs → Work.
Variable ATLASHPOWork : HPOArgs → Work.
Variable Workflow : Wf.
Variable set_workload_id : Wf → Val → Wf.
Variable add_work : Wf → Work → Wf.
Variable get_workload_id : Wf → Atom.
Variable get_primary_initial_collection : Wf → option (gmap string Atom).

(** Truth values. *)
Definition truthy_atom (a : Atom) : bool :=
  match a with
  | ANone => false
  | AInt z => bool_decide (z ≠ 0)
  | AStr s => bool_decide (s ≠ "")
  | _ => true
  end.

Definition truthy (v : Val) : bool :=
  match v with
  | Atomic a => truthy_atom a
  | Dict m => bool_decide (size m ≠ 0%nat)
  end.

(** [d[key]] on a dictionary. *)
Definition item {V} (d : gmap string V) (key : string) : Try V :=
  match d !! key with
  | Some v => mret v
  | None => throw (KeyError (VStr key))
  end.

(** [key in v]: membership in a dictionary, occurrence in a string. *)
Definition contains (v : Val) (key : string) : Try bool :=
  match v with
  | Dict m => mret (bool_decide (is_Some (m !! key)))
  | Atomic (AStr s) => mret (bool_decide (Session.find s key ≠ -1))
  | Atomic _ => throw TypeError
  end.

(** [v[key]] for a string key. *)
Definition subscript (v : Val) (key : string) : Try Atom :=
  match v with
  | Dict m => item m key
  | Atomic _ => throw TypeError
  end.

(** [v.get(key, default)] *)
Definition get (v : Val) (key : string) (default : Atom) : Try Atom :=
  match v with
  | Dict m => mret (match m !! key with Some a => a | None => default end)
  | Atomic _ => throw (AttributeError "get")
  end.

(** [v == member] and [v in [member, member.value]] *)
Definition is_member (member : RequestType.t) (v : Val) : bool :=
  match v with
  | Atomic (AType t) => bool_decide (t = member)
  | _ => false
  end.

Definition is_member_or_value (member : RequestType.t) (v : Val) : bool :=
  is_member member v
  || match v with
     | Atomic (AInt z) => bool_decide (z = value member)
     | _ => false
     end.

Definition convert_stagein_request_metadata_to_workflow
    (scope name workload_id request_metadata : Val) : Try Wf :=
  output_name ← match name with
                | Atomic (AStr s) => mret (String.append s ".idds.stagein")
                | _ => throw TypeError
                end;
  max_waiting_time ← get request_metadata "max_waiting_time" (AInt (3600 * 7 * 24));
  src_rse ← get request_metadata "src_rse" ANone;
  dest_rse ← get request_metadata "dest_rse" ANone;
  rule_id ← get request_metadata "rule_id" ANone;
  let work :=
    ATLASStageinWork
      {| primary_input_collection := (scope, name);
         output_collections := (scope, output_name);
         max_waiting_time := max_waiting_time;
         src_rse := src_rse;
         dest_rse := dest_rse;
         rule_id := rule_id |} in
  let wf := Workflow in
  let wf := set_workload_id wf workload_id in
  let wf := add_work wf work in
  mret wf.

Definition convert_hpo_request_metadata_to_workflow
    (scope name workload_id request_metadata : Val) : Try Wf :=
  executable ← get request_metadata "executable" ANone;
  arguments ← get request_metadata "arguments" ANone;
  parameters ← get request_metadata "parameters" ANone;
  sandbox ← get request_metadata "sandbox" ANone;
  method ← get request_metadata "method" ANone;
  container_workdir ← get request_metadata "workdir" ANone;
  output_json ← get request_metadata "output_json" ANone;
  opt_space ← get request_metadata "opt_space" ANone;
  initial_points ← get request_metadata "initial_points" ANone;
  max_points ← get request_metadata "max_points" ANone;
  num_points_per_iteration ← get request_metadata "num_points_per_iteration" (AInt 10);
  let work :=
    ATLASHPOWork
      {| executable := executable;
         arguments := arguments;
         parameters := parameters;
         sandbox := sandbox;
         method := method;
         container_workdir := container_workdir;
         output_json := output_json;
         opt_space := opt_space;
         initial_points := initial_points;
         max_points := max_points;
         num_points_per_iteration := num_points_per_iteration |} in
  let wf := Workflow in
  let wf := set_workload_id wf workload_id in
  let wf := add_work wf work in
  mret wf.

(** The assignments that both conversions end with. *)
Definition set_workflow_fields (data : gmap string Val) (wf : Wf) : gmap string Val :=
  <["request_metadata" :=
      Dict (<["workflow" := AWorkflow wf]>
              (<["workload_id" := get_workload_id wf]> ∅))]>
    (<["workload_id" := Atomic (get_workload_id wf)]>
       (<["status" := Atomic AStatusNew]>
          (<["transform_tag" := Atomic (AStr "workflow")]>
             (<["request_type" := Atomic (AType RequestType.Workflow)]> data)))).

(** The [if]/[elif] that chooses [workload_id]. *)
Definition choose_workload_id (data : gmap string Val) : Try Val :=
  let from_metadata : Try Val :=
    request_metadata ← item data "request_metadata";
    contains request_metadata "workload_id" ≫= λ present : bool,
      if present then
        workload_id ← subscript request_metadata "workload_id";
        if truthy_atom workload_id then mret (Atomic workload_id) else mret (Atomic ANone)
      else mret (Atomic ANone) in
  match data !! "workload_id" with
  | Some workload_id => if truthy workload_id then mret workload_id else from_metadata
  | None => from_metadata
  end.

Definition convert_old_req_2_workflow_req (data : option (gmap string Val))
    : Try (option (gmap string Val)) :=
  match data return Try (option (gmap string Val)) with
  | None => mret data
  | Some d =>
      if negb (bool_decide (size d ≠ 0%nat)) then mret data
      else
        request_type ← item d "request_type";
        if is_member RequestType.Workflow request_type then mret data
        else
          workload_id ← choose_workload_id d;
          if is_member_or_value RequestType.StageIn request_type then
            scope ← item d "scope";
            name ← item d "name";
            request_metadata ← item d "request_metadata";
            wf ← convert_stagein_request_metadata_to_workflow
                   scope name workload_id request_metadata;
            mret (Some (set_workflow_fields d wf))
          else if is_member_or_value RequestType.HyperParameterOpt request_type then
            let scope := match d !! "scope" with Some v => v | None => Atomic ANone end in
            let name := match d !! "name" with Some v => v | None => Atomic ANone end in
            request_metadata ← item d "request_metadata";
            wf ← convert_hpo_request_metadata_to_workflow
                   scope name workload_id request_metadata;
            d ← match get_primary_initial_collection wf with
                | Some primary_init_work =>
                    if bool_decide (size primary_init_work ≠ 0%nat) then
                      scope ← item primary_init_work "scope";
                      name ← item primary_init_work "name";
                      mret (<["name" := Atomic name]> (<["scope" := Atomic scope]> d))
                    else mret d
                | None => mret d
                end;
            mret (Some (set_workflow_fields d wf))
          else mret data
  end.
(** The workflow that the StageIn conversion builds. *)
Definition stagein_workflow (scope : Val) (name : string) (workload_id : Val)
    (m : gmap string (Atom)) : Wf :=
  add_work
    (set_workload_id Workflow workload_id)
    (ATLASStageinWork
       {| primary_input_collection := (scope, Atomic (AStr name));
          output_collections := (scope, String.append name ".idds.stagein");
          max_waiting_time := default (AInt 604800) (m !! "max_waiting_time");
          src_rse := default ANone (m !! "src_rse");
          dest_rse := default ANone (m !! "dest_rse");
          rule_id := default ANone (m !! "rule_id") |}).

(** The keys of the request metadata that the HPO conversion reads. *)
Definition hpo_keys : list string :=
  ["executable"; "arguments"; "parameters"; "sandbox"; "method"; "workdir";
   "output_json"; "opt_space"; "initial_points"; "max_points";
   "num_points_per_iteration"].

End Convert.

Arguments ANone {Wf}.
Arguments AInt {Wf} z.
Arguments AStr {Wf} s.
Arguments AType {Wf} t.
Arguments AStatusNew {Wf}.
Arguments AWorkflow {Wf} wf.
Arguments AObject {Wf} n.
Arguments Atomic {Wf} a.
Arguments Dict {Wf} m.
Arguments truthy_atom {Wf} a.
Arguments truthy {Wf} v.
Arguments contains {Wf} v key.
Arguments subscript {Wf} v key.
Arguments get {Wf} v key default.
Arguments is_member {Wf} member v.
Arguments is_member_or_value {Wf} value member v.
Arguments choose_workload_id {Wf} data.

(** Sample objects for the conversion: a workflow is its workload id and
    the number of its works. *)
Module RequestSample.
Definition Wf : Type := Z * nat.
Definition value (t : RequestType.t) : Z :=
  match t with
  | RequestType.Workflow => 0
  | RequestType.StageIn => 1
  | RequestType.HyperParameterOpt => 2
  | RequestType.Other n => 3 + Z.of_nat n
  end.
Definition set_workload_id (wf : Wf) (workload_id : Request.Val Wf) : Wf :=
  match workload_id with
  | Request.Atomic (Request.AInt z) => (z, wf.2)
  | _ => wf
  end.
Definition add_work (wf : Wf) (work : unit) : Wf := (wf.1, S wf.2).
Definition get_workload_id (wf : Wf) : Request.Atom Wf := Request.AInt wf.1.

Definition convert :=
  Request.convert_old_req_2_workflow_req Wf unit value (λ _, tt) (λ _, tt) (0, 0%nat)
    set_workload_id add_work get_workload_id (λ _, None).

(** HPO metadata, without and with the key of the old format that the
    conversion does not read. *)
Definition bayesian : gmap string (Request.Atom Wf) :=
  <["method" := Request.AStr "bayesian"]> ∅.
Definition bayesian_old : gmap string (Request.Atom Wf) :=
  <["num_points_per_generation" := Request.AInt 10]> bayesian.

(** An old StageIn request, an old HPO request and a request of another
    type. *)
Definition stagein_request : gmap string (Request.Val Wf) :=
  <["request_type" := Request.Atomic (Request.AType RequestType.StageIn)]>
    (<["workload_id" := Request.Atomic (Request.AInt 20776840)]>
       (<["scope" := Request.Atomic (Request.AStr "data16_13TeV")]>
          (<["name" := Request.Atomic (Request.AStr "dataset")]>
             (<["request_metadata" :=
                  Request.Dict (<["src_rse" := Request.AStr "NDGF-T1_DATATAPE"]> ∅)]> ∅)))).

Definition hpo_request : gmap string (Request.Val Wf) :=
  <["request_type" := Request.Atomic (Request.AInt 2)]>
    (<["workload_id" := Request.Atomic (Request.AInt 20525134)]>
       (<["request_metadata" := Request.Dict bayesian]> ∅)).

Definition other_request : gmap string (Request.Val Wf) :=
  <["request_type" := Request.Atomic (Request.AType (RequestType.Other 0))]>
    (<["workload_id" := Request.Atomic (Request.AInt 5)]> ∅).
End RequestSample.
End Request.

(** * Properties *)

(** ** Sets against lists without repetition *)

Section ListSets.
Context `{Countable K}.
Implicit Types (l : list K) (k a f : K).

Lemma set_singleton_list l k :
  NoDup l → (list_to_set l : gset K) = {[k]} ↔ l = [k].
Proof.
  intros Hnd. split; [|intros ->; set_solver].
  intros Heq. destruct l as [|x [|y l']].
  - set_solver.
  - f_equal. set_solver.
  - assert (x = k) by set_solver. assert (y = k) by set_solver. subst.
    apply NoDup_cons in Hnd as [Hnot _]. set_solver.
Qed.

Lemma set_pair_list l a f :
  NoDup l → a ≠ f →
  (list_to_set l : gset K) = {[a; f]} ↔ (length l = 2%nat ∧ a ∈ l ∧ f ∈ l).
Proof.
  intros Hnd Hne. split.
  - intros Heq. split; [|set_solver].
    rewrite <- (size_list_to_set (C := gset K) l Hnd), Heq.
    rewrite size_union by set_solver. by rewrite !size_singleton.
  - intros (Hlen & Ha & Hf).
    destruct l as [|x [|y [|z l']]]; simplify_eq/=.
    apply NoDup_cons in Hnd as [Hxy _].
    set_solver.
Qed.

Lemma set_meet_list l (X : gset K) :
  (list_to_set l : gset K) ∩ X ≠ ∅ ↔ ∃ k, k ∈ l ∧ k ∈ X.
Proof.
  split.
  - intros Hne. apply set_choose_L in Hne as [k Hk]. exists k. set_solver.
  - intros (k & ? & ?). set_solver.
Qed.
End ListSets.

(** ** The conditions of the code against the specification *)

Section Branch.
Implicit Types (l : list StatKey) (ss : list ContentStatus.t).

(** A condition of the code, read as the proposition it decides. *)
Lemma if_bool_decide {A} (b : bool) (P : Prop) `{!Decision P} (x y x' y' : A) :
  (b ↔ P) → x = x' → y = y' →
  (if b then x else y) = (if decide P then x' else y').
Proof. intros Hb -> ->. destruct b, (decide P); naive_solver. Qed.

Ltac unbool :=
  repeat (rewrite orb_True || rewrite andb_True || rewrite bool_decide_spec).

(** On a well-formed dictionary the conditions of the code decide as the
    precedence does on the set of keys. *)
Lemma branch_on_keys l : NoDup l → branch l = aggregator_on_keys (list_to_set l).
Proof.
  intros Hnd. unfold branch, aggregator_on_keys. cbv zeta.
  repeat (apply if_bool_decide; [unbool | done | ]); [| | | | done].
  - by rewrite !set_singleton_list.
  - by rewrite !set_singleton_list.
  - rewrite !set_pair_list by done. naive_solver.
  - rewrite set_meet_list. set_solver.
Qed.

#[local] Instance Member_inj : Inj (=) (=) Member.
Proof. by intros ?? [= ->]. Qed.
#[local] Instance Value_inj : Inj (=) (=) Value.
Proof. by intros ?? [= ->]. Qed.

Lemma fmap_eq_singleton {A B} (g : A → B) `{!Inj (=) (=) g} (xs : list A) (a : A) :
  g <$> xs = [g a] ↔ xs = [a].
Proof.
  split; [|by intros ->].
  destruct xs as [|x [|y xs]]; intros [=]; f_equal. by apply (inj g).
Qed.

Lemma Member_fmap_Value ss s : Member <$> ss ≠ [Value s].
Proof. by destruct ss. Qed.
Lemma Value_fmap_Member ss s : Value <$> ss ≠ [Member s].
Proof. by destruct ss. Qed.
Lemma Value_notin_Member ss s : Value s ∉ Member <$> ss.
Proof. intros (? & ? & ?)%list_elem_of_fmap. done. Qed.
Lemma Member_notin_Value ss s : Member s ∉ Value <$> ss.
Proof. intros (? & ? & ?)%list_elem_of_fmap. done. Qed.

Lemma branch_spec spell ss :
  spelling spell → NoDup ss →
  branch (spell <$> ss) = aggregator_spec (list_to_set ss).
Proof.
  intros Hspell Hnd. unfold branch, aggregator_spec.
  pose proof (Member_fmap_Value ss). pose proof (Value_fmap_Member ss).
  pose proof (Value_notin_Member ss). pose proof (Member_notin_Value ss).
  repeat (apply if_bool_decide; [unbool | done | ]); [| | | | done];
    rewrite ?length_fmap, ?set_singleton_list, ?set_pair_list, ?set_meet_list by done;
    destruct Hspell as [-> | ->];
    rewrite ?fmap_eq_singleton, ?(list_elem_of_fmap_inj _) by apply _.
  all: try naive_solver.
  all: set_unfold; naive_solver.
Qed.
End Branch.

(** ** The aggregator: [check_output_contents] *)

Section Aggregator.
Variable gcs : list Write → Z → Stats.
Implicit Types (transform : Transform) (ics ocs lcs : list Collection) (oc : Collection)
  (log : list Write).

Lemma set_status_ok transform metadata status contents log :
  transform !! "transform_metadata" = Some (VDict metadata) →
  set_status transform status contents log
  = (inr (transitioned transform metadata status contents), log).
Proof.
  intros Hm. unfold set_status, set_status_statistics.
  rewrite lookup_insert_ne by done. by rewrite Hm.
Qed.

(** With the guard passed, the function is the chain of conditions
    followed by the writes of the chosen branch. *)
Lemma check_output_contents_branch transform ics oc lcs log :
  more_than_one ics [oc] lcs = false →
  check_output_contents gcs transform ics [oc] lcs log =
    match branch (keys (gcs log (coll_id oc))) with
    | Transition status coll =>
        set_status transform status (gcs log (coll_id oc))
          (log ++ collection_write (coll_id oc) coll)
    | NoTransition => (inr transform, log)
    end.
Proof.
  intros Hone. unfold check_output_contents, branch. rewrite Hone.
  unfold mbind, M_bind, index0, read, update_collection, emit, generate_processing,
    mret, M_ret. cbn [collection_write].
  repeat (case_match; [done|]). case_match; [|done].
  simpl. by rewrite app_nil_r.
Qed.

(** The whole effect of the aggregator on a transform that carries its
    metadata, for a dictionary with keys in any spelling. *)
Lemma check_output_contents_on_keys transform metadata ics oc lcs log :
  more_than_one ics [oc] lcs = false →
  transform !! "transform_metadata" = Some (VDict metadata) →
  dict_wf (gcs log (coll_id oc)) →
  check_output_contents gcs transform ics [oc] lcs log =
    match aggregator_on_keys (list_to_set (keys (gcs log (coll_id oc)))) with
    | Transition status coll =>
        (inr (transitioned transform metadata status (gcs log (coll_id oc))),
         log ++ collection_write (coll_id oc) coll)
    | NoTransition => (inr transform, log)
    end.
Proof.
  intros Hone Hm Hwf. rewrite check_output_contents_branch by done.
  rewrite branch_on_keys by done.
  case_match; [|done]. by apply set_status_ok.
Qed.

Lemma transitioned_status transform metadata status contents :
  transitioned transform metadata status contents !! "status" = Some (VStatus status).
Proof. unfold transitioned. rewrite lookup_insert_ne by done. by rewrite lookup_insert_eq. Qed.

Lemma transitioned_metadata transform metadata status contents :
  transitioned transform metadata status contents !! "transform_metadata"
  = Some (VDict (<["status_statistics" := MStats contents]> metadata)).
Proof. unfold transitioned. by rewrite lookup_insert_eq. Qed.

(** C1.  For a collection whose statistics are a mapping from statuses
    to counts (keys without repetition, all spelled as members or all as
    raw values), the aggregator decides by the exact precedence of
    [aggregator_spec] on the set of distinct statuses present, whatever
    the counts and the order of the keys: on a transition the returned
    transform has the new status and the one write made is the new status
    of the output collection (none for Transforming); with no transition
    the transform is returned as it was and nothing is written. *)
Theorem aggregator_precedence transform metadata ics oc lcs log spell statuses :
  more_than_one ics [oc] lcs = false →
  transform !! "transform_metadata" = Some (VDict metadata) →
  spelling spell →
  NoDup statuses →
  keys (gcs log (coll_id oc)) = spell <$> statuses →
  match aggregator_spec (list_to_set statuses) with
  | Transition status coll =>
      ∃ transform',
        check_output_contents gcs transform ics [oc] lcs log
        = (inr transform', log ++ collection_write (coll_id oc) coll)
        ∧ transform' !! "status" = Some (VStatus status)
  | NoTransition =>
      check_output_contents gcs transform ics [oc] lcs log = (inr transform, log)
  end.
Proof.
  intros Hone Hm Hspell Hnd Hkeys.
  rewrite check_output_contents_branch, Hkeys, (branch_spec spell) by done.
  case_match; [|done].
  eexists. split; [by apply set_status_ok|]. apply transitioned_status.
Qed.


(** C10, as amended.  When no list has more than one collection:
    [fill_new_output_contents] raises [IndexError] if there is no Input
    or no Output collection, and [check_output_contents] raises
    [IndexError] if there is no Output collection; nothing is written. *)
Theorem no_collection_is_an_index_error transform ics ocs lcs log :
  more_than_one ics ocs lcs = false →
  ((ics = [] ∨ ocs = []) →
     fill_new_output_contents transform ics ocs lcs log = (inl IndexError, log))
  ∧ (ocs = [] →
     check_output_contents gcs transform ics ocs lcs log = (inl IndexError, log)).
Proof.
  intros Hone. unfold fill_new_output_contents, check_output_contents.
  rewrite Hone. split.
  - intros [-> | ->]; [done|]. by destruct ics.
  - by intros ->.
Qed.
End Aggregator.

(** ** Loops *)

Section Loops.
Context {A : Type}.
Implicit Types (l : list A) (log : list Write).

Lemma for_each_first_raise l (body : A → M unit) (P : A → Prop)
    `{!∀ x, Decision (P x)} e log :
  (∀ x, x ∈ l → P x → body x log = (inl e, log)) →
  (∀ x, x ∈ l → ¬ P x → body x log = (inr tt, log)) →
  (∃ x, x ∈ l ∧ P x) →
  for_each l body log = (inl e, log).
Proof.
  induction l as [|x l IH]; intros Hraise Hskip [y [Hy HP]].
  - by apply elem_of_nil in Hy.
  - cbn [for_each]. unfold mbind, M_bind.
    destruct (decide (P x)) as [HPx | HPx].
    + rewrite Hraise; [done | left | done].
    + rewrite Hskip; [| left | done].
      apply IH.
      * intros ???. apply Hraise; [by right | done].
      * intros ???. apply Hskip; [by right | done].
      * apply elem_of_cons in Hy as [-> | Hy]; [done | eauto].
Qed.

Lemma for_each_silent l (body : A → M unit) log :
  (∀ x, x ∈ l → body x log = (inr tt, log)) →
  for_each l body log = (inr tt, log).
Proof.
  induction l as [|x l IH]; intros Hbody; [done|].
  cbn [for_each]. unfold mbind, M_bind. rewrite Hbody by left.
  apply IH. intros ??. apply Hbody. by right.
Qed.

Lemma for_fold_invariant {S} (I : S → Prop) l (body : S → A → M S) st log :
  I st →
  (∀ st x, x ∈ l → I st → ∃ st', body st x log = (inr st', log) ∧ I st') →
  ∃ st', for_fold l body st log = (inr st', log) ∧ I st'.
Proof.
  revert st. induction l as [|x l IH]; intros st Hst Hbody; [by exists st|].
  cbn [for_fold]. unfold mbind, M_bind.
  destruct (Hbody st x) as (st1 & -> & Hst1); [left | done |].
  apply IH; [done|]. intros ????. apply Hbody; [by right | done].
Qed.

Lemma for_return_all_raise {B} l (body : A → M (option B)) e log :
  (∀ x log, body x log = (inl e, log)) →
  for_return l body log
  = match l with [] => (inr None, log) | _ => (inl e, log) end.
Proof.
  intros Hbody. destruct l as [|x l]; [done|].
  cbn [for_return]. unfold mbind, M_bind. by rewrite Hbody.
Qed.
End Loops.

(** ** The monitor path *)

Section Monitor.
Variable gc : list Write → Val → Fetched.
Variable gcs : list Write → Z → Stats.
Implicit Types (transform : Transform) (colls : list Collection) (log : list Write).

(** No run of the monitor path returns a transform: the aggregator is
    never reached, whatever the status of the Output collections. *)
Lemma monitor_returns_no_transform transform log r log' :
  process_monitor_transform gc gcs transform log = (inr r, log') → r = None.
Proof.
  unfold process_monitor_transform, mbind, M_bind, read.
  repeat (case_match; simplify_eq/=; try done).
  rewrite (for_return_all_raise _ _ (AttributeError "Updated1")) by done.
  case_match; by intros [= <- <-].
Qed.

(** With a first loop that makes no call, a transform with an Output
    collection ends the monitor path in [AttributeError]. *)
Lemma monitor_attribute_error transform v colls log :
  transform !! "transform_id" = Some v →
  gc log v = FList colls →
  (∀ coll, coll ∈ colls → relation_type coll = CollectionRelationType.Input →
           coll_status coll ≠ CollectionStatus.Updated) →
  (∃ coll, coll ∈ colls ∧ relation_type coll = CollectionRelationType.Output) →
  process_monitor_transform gc gcs transform log
  = (inl (AttributeError "Updated1"), log).
Proof.
  intros Hid Hgc Hin [oc [Hoc Hrel]].
  unfold process_monitor_transform, getitem. rewrite Hid.
  unfold mbind at 1, M_bind at 1, mret at 1, M_ret at 1.
  unfold mbind at 1, M_bind at 1, read. rewrite Hgc.
  unfold mbind at 1, M_bind at 1. cbn [iterate_collections mret M_ret].
  unfold mbind at 1, M_bind at 1.
  rewrite for_each_silent.
  - assert (oc ∈ filter (λ coll, relation_type coll = CollectionRelationType.Output) colls)
      as Hf by (by apply list_elem_of_filter).
    destruct (filter _ colls) as [|x l] eqn:E in Hf |- *; [by apply elem_of_nil in Hf|].
    done.
  - intros coll [Hrel' Hcoll]%list_elem_of_filter.
    rewrite bool_decide_eq_false_2; [done|]. by apply Hin.
Qed.

(** The monitor path reaches the content-splitting step when an Input
    collection is Updated; with more than one collection of a kind the
    step's configuration error leaves the path before any write. *)
Lemma monitor_configuration_error transform v colls log :
  transform !! "transform_id" = Some v →
  gc log v = FList colls →
  more_than_one
    (filter (λ coll, relation_type coll = CollectionRelationType.Input) colls)
    (filter (λ coll, relation_type coll = CollectionRelationType.Output) colls)
    (filter (λ coll, relation_type coll = CollectionRelationType.Log) colls) = true →
  (∃ coll, coll ∈ colls ∧ relation_type coll = CollectionRelationType.Input
           ∧ coll_status coll = CollectionStatus.Updated) →
  process_monitor_transform gc gcs transform log
  = (inl (IDDSException unsupported), log).
Proof.
  intros Hid Hgc Hmore (ic & Hic & Hrel & Hst).
  unfold process_monitor_transform, getitem. rewrite Hid.
  unfold mbind at 1, M_bind at 1, mret at 1, M_ret at 1.
  unfold mbind at 1, M_bind at 1, read. rewrite Hgc.
  unfold mbind at 1, M_bind at 1. cbn [iterate_collections mret M_ret].
  unfold mbind at 1, M_bind at 1.
  rewrite (for_each_first_raise _ _
             (λ coll, coll_status coll = CollectionStatus.Updated)
             (IDDSException unsupported)); [done | | |].
  - intros coll _ Hu. rewrite bool_decide_eq_true_2 by done.
    unfold fill_new_output_contents. by rewrite Hmore.
  - intros coll _ Hu. by rewrite bool_decide_eq_false_2.
  - exists ic. split; [by apply list_elem_of_filter | done].
Qed.
End Monitor.

(** ** The new-transform path *)

Section NewTransform.
Variable gc : list Write → Val → Fetched.
Variable Outputs : Type.
Variable gto : Transform → list Collection → M Outputs.
Implicit Types (transform : Transform) (log : list Write).

Lemma getitem_int_elem {V} (d : list (Z * V)) key log :
  key ∈ d.*1 → ∃ v, getitem_int d key log = (inr v, log) ∧ (key, v) ∈ d.
Proof.
  intros Hkey. unfold getitem_int.
  apply list_elem_of_fmap in Hkey as ([k v] & -> & Hkv).
  destruct (list_find (λ kv, kv.1 = (k, v).1) d) as [[i [k' v']]|] eqn:Hfind.
  - apply list_find_Some in Hfind as (Hi & Hk' & _). simpl in *. subst k'.
    exists v'. split; [done|]. by eapply list_elem_of_lookup_2.
  - apply list_find_None in Hfind.
    rewrite Forall_forall in Hfind. by destruct (Hfind _ Hkv).
Qed.

(** The search through the fetched collections raises nothing and writes
    nothing; it leaves [ret_transform] unset or set to the transform. *)
Lemma find_collections_ok transform tid fetched log :
  transform !! "transform_id" = Some (VInt tid) →
  fetched_for tid fetched →
  ∃ found, find_collections transform fetched log = (inr found, log)
           ∧ (found.2 = None ∨ found.2 = Some transform).
Proof.
  intros Hid Hfor. unfold find_collections.
  destruct fetched as [d | l].
  - apply for_fold_invariant; [by left|].
    intros st request_id Hrid Hst.
    apply for_fold_invariant; [done|].
    intros st' transform_id Htid Hst'.
    unfold getitem. rewrite Hid.
    unfold mbind, M_bind, mret, M_ret. cbn [eq_int].
    case_bool_decide as Heq; [|by exists st'].
    subst transform_id.
    destruct (getitem_int_elem d request_id log Hrid) as (by_transform & -> & Hin).
    simpl in Hfor. rewrite Forall_forall in Hfor.
    destruct (getitem_int_elem by_transform tid log (Hfor _ Hin)) as (collections & -> & _).
    eexists. split; [done|]. by right.
  - apply for_fold_invariant; [by left|].
    intros st _ _ Hst.
    apply for_fold_invariant; [done|].
    intros st' _ _ Hst'.
    unfold getitem. rewrite Hid. by exists st'.
Qed.

(** C6.  For a Ready transform whose metadata has
    [input_collection_changed] false, and whatever collections the
    gateway answers to the query for its id, the new-transform path
    returns the empty dictionary and makes no write: the log is as it was,
    and the persisted row of the transform, status Ready included, is what
    it was. *)
Theorem unchanged_input_is_a_noop transform metadata tid log :
  transform !! "transform_id" = Some (VInt tid) →
  transform !! "status" = Some (VStatus TransformStatus.Ready) →
  transform !! "transform_metadata" = Some (VDict metadata) →
  metadata !! "input_collection_changed" = Some (MBool false) →
  fetched_for tid (gc log (VInt tid)) →
  process_new_transform gc Outputs gto transform log = (inr EmptyDict, log)
  ∧ writes_of (process_new_transform gc Outputs gto transform) log = []
  ∧ ∀ table row,
      table !! tid = Some row →
      row !! "status" = Some (VStatus TransformStatus.Ready) →
      Gateway.apply_writes table
        (writes_of (process_new_transform gc Outputs gto transform) log) !! tid
      = Some row.
Proof.
  intros Hid Hready Hm Hflag Hfor.
  assert (process_new_transform gc Outputs gto transform log = (inr EmptyDict, log)) as Hrun.
  { unfold process_new_transform, getitem. rewrite Hid.
    unfold mbind at 1, M_bind at 1, mret at 1, M_ret at 1.
    unfold mbind at 1, M_bind at 1, read.
    unfold mbind at 1, M_bind at 1.
    destruct (find_collections_ok transform tid (gc log (VInt tid)) log Hid Hfor)
      as (found & -> & [-> | ->]); [done|].
    destruct (truthy_dict transform); [|done].
    rewrite Hm. unfold mbind, M_bind, mret, M_ret, subscript, getitem.
    by rewrite Hflag. }
  assert (writes_of (process_new_transform gc Outputs gto transform) log = []) as Hw.
  { unfold writes_of. rewrite Hrun. simpl. by rewrite drop_all. }
  split; [done|]. split; [done|]. intros table row Hrow _. by rewrite Hw.
Qed.
End NewTransform.

(** ** Draining the monitor results *)

Section Finish.
Implicit Types (transform row : Transform) (log : list Write) (key : string).

(** The parameter of the update holds the two fields, each only if the
    result has it. *)
Lemma monitor_parameter_lookup transform key :
  monitor_parameter transform !! key
  = if decide (key = "status" ∨ key = "transform_metadata")
    then transform !! key else None.
Proof.
  unfold monitor_parameter. cbn [foldl].
  destruct (transform !! "status") as [s|] eqn:Hs;
    destruct (transform !! "transform_metadata") as [m|] eqn:Hm;
    case_decide as Hkey;
    try (destruct Hkey as [-> | ->]);
    simplify_map_eq; try done;
    rewrite ?lookup_insert_ne by tauto; by rewrite ?lookup_empty.
Qed.

Lemma finish_monitor_transforms_log (results : list Transform) log :
  Forall (λ transform, is_Some (transform !! "transform_id")) results →
  finish_monitor_transforms (Some <$> results) log
  = (inr tt, log ++ (monitor_write <$> results)).
Proof.
  revert log. induction results as [|transform results IH]; intros log Hall.
  - simpl. by rewrite app_nil_r.
  - apply Forall_cons in Hall as [[v Hv] Hall].
    cbn [fmap list_fmap for_each finish_monitor_transforms].
    unfold finish_monitor_transforms in IH.
    unfold mbind at 1, M_bind at 1. unfold getitem. rewrite Hv.
    unfold mbind at 1, M_bind at 1, mret at 1, M_ret at 1, update_transform, emit.
    rewrite IH by done.
    unfold monitor_write at 2. rewrite Hv. simpl.
    by rewrite <- app_assoc.
Qed.

(** The field-level update of the persisted row. *)
Lemma apply_monitor_write table transform tid row :
  transform !! "transform_id" = Some (VInt tid) →
  table !! tid = Some row →
  Gateway.apply_write table (monitor_write transform) !! tid
  = Some (monitor_parameter transform ∪ row).
Proof.
  intros Hid Hrow. unfold monitor_write. rewrite Hid. simpl.
  rewrite lookup_alter_eq. by rewrite Hrow.
Qed.

(** C7.  Draining the monitor results makes one [update_transform] per
    result, whose parameter holds [status] and [transform_metadata] as the
    result has them and no other key; a field the result lacks is not in
    the parameter.  On the persisted row the two fields take the values of
    the result where it has them, every other field keeps its value, and
    the rows of the other transforms are not touched. *)
Theorem monitor_results_update_two_fields (results : list Transform) log :
  Forall (λ transform, is_Some (transform !! "transform_id")) results →
  finish_monitor_transforms (Some <$> results) log
  = (inr tt, log ++ (monitor_write <$> results))
  ∧ (∀ transform key,
       monitor_parameter transform !! key
       = if decide (key = "status" ∨ key = "transform_metadata")
         then transform !! key else None)
  ∧ (∀ table transform tid row,
       transform !! "transform_id" = Some (VInt tid) →
       table !! tid = Some row →
       ∃ row',
         Gateway.apply_write table (monitor_write transform) !! tid = Some row'
         ∧ (∀ key, key ≠ "status" → key ≠ "transform_metadata" →
                   row' !! key = row !! key)
         ∧ (∀ key, transform !! key = None → row' !! key = row !! key)
         ∧ (∀ key v, key = "status" ∨ key = "transform_metadata" →
                     transform !! key = Some v → row' !! key = Some v)
         ∧ (∀ other, other ≠ tid →
                     Gateway.apply_write table (monitor_write transform) !! other
                     = table !! other)).
Proof.
  intros Hall. split; [by apply finish_monitor_transforms_log|].
  split; [apply monitor_parameter_lookup|].
  intros table transform tid row Hid Hrow.
  exists (monitor_parameter transform ∪ row).
  split; [by apply apply_monitor_write|].
  repeat split.
  - intros key H1 H2. rewrite lookup_union_r; [done|].
    rewrite monitor_parameter_lookup. case_decide; [tauto | done].
  - intros key Hnone. rewrite lookup_union_r; [done|].
    rewrite monitor_parameter_lookup. by case_decide.
  - intros key v Hkey Hv. apply lookup_union_Some_l.
    rewrite monitor_parameter_lookup. by case_decide.
  - intros other Hne. unfold monitor_write. rewrite Hid. simpl.
    by rewrite lookup_alter_ne.
Qed.
End Finish.

(** ** The polling queries *)

Section Polling.
Implicit Types (table : gmap Z Transform) (now tid : Z) (t : Transform).

Lemma get_transforms_by_status_elem table now status period t tid :
  t ∈ Gateway.get_transforms_by_status table now status period →
  t !! "transform_id" = Some (VInt tid) →
  ∃ row s, table !! tid = Some row ∧ row !! "status" = Some (VStatus s) ∧ s ∈ status.
Proof.
  unfold Gateway.get_transforms_by_status.
  intros ([k row] & -> & [Hf Hin]%list_elem_of_filter)%list_elem_of_fmap Hid.
  simpl in *. rewrite lookup_insert_eq in Hid. injection Hid as ->.
  apply elem_of_map_to_list in Hin.
  apply andb_True in Hf as [Hs _]. unfold Gateway.status_in in Hs.
  destruct (row !! "status") as [[| | |s|]|] eqn:Hst; try done.
  apply bool_decide_spec in Hs. eauto.
Qed.

(** C8.  The new-transform query asks for status Ready, the monitor
    query for status Transforming with a period of 3600 seconds; the two
    filters share no status, and no transform id is selected by both
    queries on the same persisted table. *)
Theorem polling_queries_are_disjoint table now :
  get_new_transforms (Gateway.get_transforms_by_status table now)
  = Gateway.get_transforms_by_status table now [TransformStatus.Ready] None
  ∧ get_monitor_transforms (Gateway.get_transforms_by_status table now)
    = Gateway.get_transforms_by_status table now [TransformStatus.Transforming] (Some 3600)
  ∧ [TransformStatus.Ready] ## [TransformStatus.Transforming]
  ∧ ∀ tid t1 t2,
      t1 ∈ get_new_transforms (Gateway.get_transforms_by_status table now) →
      t2 ∈ get_monitor_transforms (Gateway.get_transforms_by_status table now) →
      t1 !! "transform_id" = Some (VInt tid) →
      t2 !! "transform_id" = Some (VInt tid) →
      False.
Proof.
  split; [done|]. split; [done|]. split.
  - intros s ->%list_elem_of_singleton H2%list_elem_of_singleton. done.
  - intros tid t1 t2 H1 H2 Hid1 Hid2.
    destruct (get_transforms_by_status_elem _ _ _ _ _ _ H1 Hid1) as (row1 & s1 & Hr1 & Hs1 & Hin1).
    destruct (get_transforms_by_status_elem _ _ _ _ _ _ H2 Hid2) as (row2 & s2 & Hr2 & Hs2 & Hin2).
    apply list_elem_of_singleton in Hin1, Hin2. simplify_eq.
Qed.
End Polling.

(** ** The main loop *)

Section MainLoop.
Implicit Types (iterations before later : list (bool * Outcome))
  (log : list LogRecord) (e : PyExc).

Lemma main_loop_continues iterations before log :
  Forall continues before →
  main_loop (before ++ iterations) log
  = main_loop iterations (log ++ (handler <$> raised_exceptions before)).
Proof.
  revert log. induction before as [|[is_set work] before IH]; intros log Hall.
  - simpl. by rewrite app_nil_r.
  - apply Forall_cons in Hall as [[Hset Hwork] Hall]. simpl in Hset, Hwork. subst.
    destruct Hwork as [-> | [e ->]]; cbn.
    + by apply IH.
    + rewrite IH by done. by rewrite <- app_assoc.
Qed.

(** Every way the loop is left. *)
Lemma main_loop_exit iterations log :
  ∃ before rest,
    iterations = before ++ rest
    ∧ Forall continues before
    ∧ (main_loop iterations log).2 = log ++ (handler <$> raised_exceptions before)
    ∧ match (main_loop iterations log).1 with
      | Looping => rest = []
      | Returned => ∃ work later, rest = (true, work) :: later
      | Stopped => ∃ later, rest = (false, Raised KeyboardInterrupt) :: later
      | Propagated r =>
          ∃ name later, r = BaseExc name ∧ rest = (false, Raised (BaseExc name)) :: later
      end.
Proof.
  revert log. induction iterations as [|[is_set work] iterations IH]; intros log.
  - exists [], []. simpl. by rewrite app_nil_r.
  - destruct is_set.
    { exists [], ((true, work) :: iterations). simpl. rewrite app_nil_r. eauto 10. }
    destruct work as [|[e| |name]].
    + destruct (IH log) as (before & rest & -> & Hall & Hlog & Hend).
      exists ((false, Completed) :: before), rest. cbn.
      split; [done|]. split; [|done].
      constructor; [|done]. split; [done | by left].
    + destruct (IH (log ++ [handler e])) as (before & rest & -> & Hall & Hlog & Hend).
      exists ((false, Raised (Exc e)) :: before), rest. cbn.
      split; [done|]. split; [|split; [|done]].
      * constructor; [|done]. split; [done | right; eauto].
      * rewrite Hlog. by rewrite <- app_assoc.
    + exists [], ((false, Raised KeyboardInterrupt) :: iterations). simpl.
      rewrite app_nil_r. eauto 10.
    + exists [], ((false, Raised (BaseExc name)) :: iterations). simpl.
      rewrite app_nil_r. eauto 10.
Qed.

Lemma finish_new_transforms_completes {A} (handle : A → Outcome) (queue : list A)
    (log : list LogRecord) :
  (∀ ret, handle ret = Completed ∨ ∃ ex, handle ret = Raised (Exc ex)) →
  (finish_new_transforms handle queue log).1 = Completed.
Proof.
  intros Hhandle. revert log. induction queue as [|ret queue IH]; intros log; [done|].
  cbn. destruct (Hhandle ret) as [-> | [ex ->]]; apply IH.
Qed.

(** C9.  When the work of the iterations raises only instances of
    [Exception] (the agent's [IDDSException] or any other) or
    [KeyboardInterrupt]: an iteration whose work raises an instance of
    [Exception] is answered by one log record, an error for
    [IDDSException] and a critical record for any other, and the loop
    goes on with the next iteration; the loop is left only when the stop
    signal is set at the loop test (the function returns) or when
    [KeyboardInterrupt] is raised (the agent is stopped); until then every
    exception raised has its record in the log.  Inside
    [finish_new_transforms] an exception raised for one queued result is
    logged and the queue is drained further. *)
Theorem agent_loop_survives_exceptions iterations :
  Forall (λ iteration, ordinary iteration.2) iterations →
  (∀ e later log0,
     main_loop ((false, Raised (Exc e)) :: later) log0
     = main_loop later (log0 ++ [handler e])
     ∧ handler e = match e with
                   | IDDSException _ => LogError "Main thread IDDSException: " e
                   | _ => LogCritical "Main thread exception: " e
                   end)
  ∧ (∃ before rest,
       iterations = before ++ rest
       ∧ Forall continues before
       ∧ (run Completed iterations).2
         = [LogInfo "Starting main thread"] ++ (handler <$> raised_exceptions before)
       ∧ ((run Completed iterations).1 = Looping ∧ rest = []
          ∨ (run Completed iterations).1 = Returned
            ∧ (∃ work later, rest = (true, work) :: later)
          ∨ (run Completed iterations).1 = Stopped
            ∧ (∃ later, rest = (false, Raised KeyboardInterrupt) :: later)))
  ∧ (∀ A (handle : A → Outcome) (queue : list A) log0,
       (∀ ret, handle ret = Completed ∨ ∃ ex, handle ret = Raised (Exc ex)) →
       (finish_new_transforms handle queue log0).1 = Completed).
Proof.
  intros Hord. split; [|split].
  - intros e later log0. split; [done | by destruct e].
  - unfold run.
    destruct (main_loop_exit iterations [LogInfo "Starting main thread"])
      as (before & rest & -> & Hall & Hlog & Hend).
    exists before, rest. split; [done|]. split; [done|]. split; [done|].
    destruct (main_loop _ _).1 as [| |r|] eqn:E; eauto.
    destruct Hend as (name & later & -> & ->).
    apply Forall_app in Hord as [_ Hord]. apply Forall_cons in Hord as [Hord _].
    by destruct (Hord name).
  - intros. by apply finish_new_transforms_completes.
Qed.
End MainLoop.

(** ** The properties at sample inputs *)

Section Samples.
Import Sample.

(** The precedence examples of the specification. *)
Example precedence_examples :
  aggregator_spec {[ContentStatus.Available]}
  = Transition TransformStatus.Finished (Some CollectionStatus.Closed)
  ∧ aggregator_spec {[ContentStatus.FinalFailed]}
    = Transition TransformStatus.Failed (Some CollectionStatus.Failed)
  ∧ aggregator_spec {[ContentStatus.Available; ContentStatus.FinalFailed]}
    = Transition TransformStatus.SubFinished (Some CollectionStatus.SubClosed)
  ∧ aggregator_spec {[ContentStatus.New; ContentStatus.Available]}
    = Transition TransformStatus.Transforming None
  ∧ aggregator_spec ∅ = NoTransition.
Proof. repeat split; vm_compute; reflexivity. Qed.

Lemma NoDup_two_statuses : NoDup [ContentStatus.FinalFailed; ContentStatus.Available].
Proof. apply (bool_decide_unpack _). vm_compute. exact I. Qed.

Lemma aggregator_precedence_witness :
  (more_than_one [input CollectionStatus.Open] [output CollectionStatus.Updated] [] = false
   ∧ transform TransformStatus.Transforming !! "transform_metadata" = Some (VDict metadata)
   ∧ spelling Member
   ∧ NoDup [ContentStatus.FinalFailed; ContentStatus.Available]
   ∧ keys (statistics mixed [] (coll_id (output CollectionStatus.Updated)))
     = Member <$> [ContentStatus.FinalFailed; ContentStatus.Available])
  ∧ match aggregator_spec (list_to_set [ContentStatus.FinalFailed; ContentStatus.Available]) with
    | Transition status coll =>
        ∃ transform',
          check_output_contents (statistics mixed) (transform TransformStatus.Transforming)
            [input CollectionStatus.Open] [output CollectionStatus.Updated] [] []
          = (inr transform', [] ++ collection_write (coll_id (output CollectionStatus.Updated)) coll)
          ∧ transform' !! "status" = Some (VStatus status)
    | NoTransition =>
        check_output_contents (statistics mixed) (transform TransformStatus.Transforming)
          [input CollectionStatus.Open] [output CollectionStatus.Updated] [] []
        = (inr (transform TransformStatus.Transforming), [])
    end.
Proof.
  split.
  - split; [reflexivity|]. split; [reflexivity|]. split; [by left|].
    split; [exact NoDup_two_statuses | reflexivity].
  - apply (aggregator_precedence _ _ metadata _ _ _ _ Member);
      [reflexivity | reflexivity | by left | exact NoDup_two_statuses | reflexivity].
Defined.

(** The sample run of C1, evaluated: SubFinished and SubClosed. *)
Example aggregator_sub_finished :
  check_output_contents (statistics mixed) (transform TransformStatus.Transforming)
    [input CollectionStatus.Open] [output CollectionStatus.Updated] [] []
  = (inr (transitioned (transform TransformStatus.Transforming) metadata
            TransformStatus.SubFinished mixed),
     [UpdateCollection 2 CollectionStatus.SubClosed]).
Proof. vm_compute; reflexivity. Qed.

(** C2 on the code: a transform whose only collection is an Output
    collection with [coll_status] Updated.  The monitor path compares the
    status against [CollectionStatus.Updated1], which the enumeration does
    not have: it ends in [AttributeError] with no write, and the
    aggregator, which on this collection would finish the transform and
    close the collection, is not run. *)
Theorem updated_output_does_not_reach_the_aggregator :
  process_monitor_transform (collections [output CollectionStatus.Updated])
    (statistics available) (transform TransformStatus.Transforming) []
  = (inl (AttributeError "Updated1"), [])
  ∧ check_output_contents (statistics available) (transform TransformStatus.Transforming)
      [] [output CollectionStatus.Updated] [] []
    = (inr (transitioned (transform TransformStatus.Transforming) metadata
              TransformStatus.Finished available),
       [UpdateCollection 2 CollectionStatus.Closed]).
Proof. split; vm_compute; reflexivity. Qed.

(** C3 on the code: a transform with one Input collection whose
    [coll_status] is Updated and whose metadata says closed, and one
    Output collection.  The monitor path calls the content-splitting step,
    which acts only on status Update: it returns without a write, and the
    path then ends in [AttributeError] at the Output collection, the log
    still empty.  On status Update the step makes the three writes. *)
Theorem updated_input_is_not_split :
  fill_new_output_contents (transform TransformStatus.Transforming)
    [input CollectionStatus.Updated] [output CollectionStatus.New] [] []
  = (inr tt, [])
  ∧ process_monitor_transform
      (collections [input CollectionStatus.Updated; output CollectionStatus.New])
      (statistics available) (transform TransformStatus.Transforming) []
    = (inl (AttributeError "Updated1"), [])
  ∧ fill_new_output_contents (transform TransformStatus.Transforming)
      [input CollectionStatus.Update] [output CollectionStatus.New] [] []
    = (inr tt, [AddContents None;
                UpdateCollection 1 CollectionStatus.Closed;
                UpdateCollection 2 CollectionStatus.Updated]).
Proof. repeat split; vm_compute; reflexivity. Qed.




(** C10 as stated fails: with no Input collection and one Output
    collection the aggregator runs to its end, and with no Input
    collection and two Output collections the content-splitting step
    raises the configuration error; neither is an [IndexError]. *)
Lemma no_input_collection_without_index_error :
  check_output_contents (statistics available) (transform TransformStatus.Transforming)
    [] [output CollectionStatus.Updated] [] []
  = (inr (transitioned (transform TransformStatus.Transforming) metadata
            TransformStatus.Finished available),
     [UpdateCollection 2 CollectionStatus.Closed])
  ∧ fill_new_output_contents (transform TransformStatus.Transforming)
      [] [output CollectionStatus.New; output CollectionStatus.Open] [] []
    = (inl (IDDSException unsupported), []).
Proof. split; vm_compute; reflexivity. Qed.

Lemma no_collection_is_an_index_error_witness :
  more_than_one [] [] [log_collection] = false
  ∧ (((@nil Collection) = [] ∨ (@nil Collection) = [] →
      fill_new_output_contents (transform TransformStatus.Transforming)
        [] [] [log_collection] []
      = (inl IndexError, []))
     ∧ ((@nil Collection) = [] →
        check_output_contents (statistics available) (transform TransformStatus.Transforming)
          [] [] [log_collection] []
        = (inl IndexError, []))).
Proof.
  split; [reflexivity|].
  apply (no_collection_is_an_index_error (statistics available)). reflexivity.
Defined.
Lemma unchanged_input_is_a_noop_witness :
  (transform TransformStatus.Ready !! "transform_id" = Some (VInt 7)
   ∧ transform TransformStatus.Ready !! "status" = Some (VStatus TransformStatus.Ready)
   ∧ transform TransformStatus.Ready !! "transform_metadata" = Some (VDict metadata)
   ∧ metadata !! "input_collection_changed" = Some (MBool false)
   ∧ fetched_for 7 (nested [input CollectionStatus.Open; output CollectionStatus.New] [] (VInt 7)))
  ∧ process_new_transform (nested [input CollectionStatus.Open; output CollectionStatus.New])
      unit (λ _ _, mret tt) (transform TransformStatus.Ready) []
    = (inr EmptyDict, [])
  ∧ writes_of (process_new_transform (nested [input CollectionStatus.Open; output CollectionStatus.New])
                 unit (λ _ _, mret tt) (transform TransformStatus.Ready)) []
    = []
  ∧ ∀ table row,
      table !! 7 = Some row →
      row !! "status" = Some (VStatus TransformStatus.Ready) →
      Gateway.apply_writes table
        (writes_of (process_new_transform
                      (nested [input CollectionStatus.Open; output CollectionStatus.New])
                      unit (λ _ _, mret tt) (transform TransformStatus.Ready)) []) !! 7
      = Some row.
Proof.
  assert (fetched_for 7 (nested [input CollectionStatus.Open; output CollectionStatus.New] [] (VInt 7)))
    as Hfor.
  { repeat constructor. }
  split.
  - split; [reflexivity|]. split; [reflexivity|]. split; [reflexivity|].
    split; [reflexivity | exact Hfor].
  - apply (unchanged_input_is_a_noop _ unit _ _ metadata 7);
      [reflexivity | reflexivity | reflexivity | reflexivity | exact Hfor].
Defined.

Lemma monitor_results_update_two_fields_witness :
  Forall (λ t : Transform, is_Some (t !! "transform_id")) [transform TransformStatus.Finished]
  ∧ finish_monitor_transforms (Some <$> [transform TransformStatus.Finished]) []
    = (inr tt, [] ++ (monitor_write <$> [transform TransformStatus.Finished]))
  ∧ Gateway.apply_writes (table TransformStatus.Transforming)
      (monitor_write <$> [transform TransformStatus.Finished]) !! 7
    = Some (<["updated_at" := VInt 0]>
              (<["priority" := VInt 3]> (transform TransformStatus.Finished))).
Proof.
  assert (Forall (λ t : Transform, is_Some (t !! "transform_id"))
                 [transform TransformStatus.Finished]) as Hall.
  { constructor; [|constructor]. exists (VInt 7). reflexivity. }
  split; [exact Hall|]. split.
  - exact (proj1 (monitor_results_update_two_fields [transform TransformStatus.Finished] [] Hall)).
  - vm_compute. reflexivity.
Defined.

(** C8 at the sample table: a Ready transform is selected by the
    new-transform query alone, a Transforming one, untouched for an hour,
    by the monitor query alone, and not before the hour is over. *)
Example polling_selects :
  get_new_transforms (Gateway.get_transforms_by_status (table TransformStatus.Ready) 3600)
  = [<["updated_at" := VInt 0]> (<["priority" := VInt 3]> (transform TransformStatus.Ready))]
  ∧ get_monitor_transforms (Gateway.get_transforms_by_status (table TransformStatus.Ready) 3600)
    = []
  ∧ get_new_transforms
      (Gateway.get_transforms_by_status (table TransformStatus.Transforming) 3600)
    = []
  ∧ get_monitor_transforms
      (Gateway.get_transforms_by_status (table TransformStatus.Transforming) 3600)
    = [<["updated_at" := VInt 0]>
         (<["priority" := VInt 3]> (transform TransformStatus.Transforming))]
  ∧ get_monitor_transforms
      (Gateway.get_transforms_by_status (table TransformStatus.Transforming) 3599)
    = [].
Proof. repeat split; vm_compute; reflexivity. Qed.

Lemma agent_loop_survives_exceptions_witness :
  Forall (λ iteration : bool * Outcome, ordinary iteration.2) iterations
  ∧ run Completed iterations
    = (Returned,
       [LogInfo "Starting main thread";
        LogError "Main thread IDDSException: " (IDDSException unsupported);
        LogCritical "Main thread exception: " TypeError])
  ∧ ∃ before rest,
      iterations = before ++ rest
      ∧ Forall continues before
      ∧ (run Completed iterations).2
        = [LogInfo "Starting main thread"] ++ (handler <$> raised_exceptions before)
      ∧ ((run Completed iterations).1 = Looping ∧ rest = []
         ∨ (run Completed iterations).1 = Returned
           ∧ (∃ work later, rest = (true, work) :: later)
         ∨ (run Completed iterations).1 = Stopped
           ∧ (∃ later, rest = (false, Raised KeyboardInterrupt) :: later)).
Proof.
  assert (Forall (λ iteration : bool * Outcome, ordinary iteration.2) iterations) as Hord.
  { repeat constructor; intros name; discriminate. }
  split; [exact Hord|]. split; [reflexivity|].
  exact (proj1 (proj2 (agent_loop_survives_exceptions iterations Hord))).
Defined.
End Samples.

(** ** Further properties of the monitor path *)

Section MonitorMore.
Variable gc : list Write → Val → Fetched.
Variable gcs : list Write → Z → Stats.
Implicit Types (transform : Transform) (colls ics ocs lcs : list Collection)
  (coll ic oc : Collection) (log : list Write).

Lemma more_than_one_false_inv ics ocs lcs :
  more_than_one ics ocs lcs = false →
  (length ics ≤ 1 ∧ length ocs ≤ 1 ∧ length lcs ≤ 1)%nat.
Proof.
  unfold more_than_one. rewrite !orb_false_iff, !bool_decide_eq_false. lia.
Qed.

(** The content-splitting step as the monitor path calls it, for an
    Updated Input collection: with the guard passed the only Input
    collection is the Updated one, whose status is not Update. *)
Lemma fill_for_updated_input transform ics ocs lcs coll log :
  coll ∈ ics →
  coll_status coll = CollectionStatus.Updated →
  fill_new_output_contents transform ics ocs lcs log
  = (if more_than_one ics ocs lcs then inl (IDDSException unsupported)
     else if bool_decide (ocs = []) then inl IndexError
     else inr tt, log).
Proof.
  intros Hin Hst. unfold fill_new_output_contents.
  destruct (more_than_one ics ocs lcs) eqn:Hmore; [done|].
  apply more_than_one_false_inv in Hmore as (Hi & _ & _).
  destruct ics as [|ic [|??]]; [by apply elem_of_nil in Hin | | simpl in Hi; lia].
  apply list_elem_of_singleton in Hin as <-.
  destruct ocs as [|oc ocs]; [done|].
  cbn. unfold mbind, M_bind, mret, M_ret. cbn.
  rewrite Hst. by rewrite bool_decide_eq_false_2.
Qed.

Lemma process_monitor_transform_list transform v colls log :
  transform !! "transform_id" = Some v →
  gc log v = FList colls →
  process_monitor_transform gc gcs transform log = (monitor_outcome colls, log).
Proof.
  intros Hid Hgc.
  unfold process_monitor_transform, getitem. rewrite Hid.
  unfold mbind at 1, M_bind at 1, mret at 1, M_ret at 1.
  unfold mbind at 1, M_bind at 1, read. rewrite Hgc.
  unfold mbind at 1, M_bind at 1. cbn [iterate_collections mret M_ret].
  unfold mbind at 1, M_bind at 1.
  unfold monitor_outcome.
  set (ics := filter (λ coll, relation_type coll = CollectionRelationType.Input) colls).
  set (ocs := filter (λ coll, relation_type coll = CollectionRelationType.Output) colls).
  set (lcs := filter (λ coll, relation_type coll = CollectionRelationType.Log) colls).
  case_bool_decide as Hex.
  - apply Exists_exists in Hex.
    destruct (more_than_one ics ocs lcs) eqn:Hmore;
      [|case_bool_decide as Hocs].
    + rewrite (for_each_first_raise _ _
                 (λ coll, coll_status coll = CollectionStatus.Updated)
                 (IDDSException unsupported)); [done | | | done].
      * intros coll Hin Hu. rewrite bool_decide_eq_true_2 by done.
        rewrite (fill_for_updated_input _ _ _ _ coll) by done. by rewrite Hmore.
      * intros coll _ Hu. by rewrite bool_decide_eq_false_2.
    + rewrite (for_each_first_raise _ _
                 (λ coll, coll_status coll = CollectionStatus.Updated) IndexError);
        [done | | | done].
      * intros coll Hin Hu. rewrite bool_decide_eq_true_2 by done.
        rewrite (fill_for_updated_input _ _ _ _ coll) by done.
        rewrite Hmore. by rewrite bool_decide_eq_true_2.
      * intros coll _ Hu. by rewrite bool_decide_eq_false_2.
    + rewrite for_each_silent.
      * rewrite (for_return_all_raise _ _ (AttributeError "Updated1")) by done.
        by destruct ocs.
      * intros coll Hin. case_bool_decide as Hu; [|done].
        rewrite (fill_for_updated_input _ _ _ _ coll) by done.
        rewrite Hmore. by rewrite bool_decide_eq_false_2.
  - rewrite for_each_silent.
    + rewrite (for_return_all_raise _ _ (AttributeError "Updated1")) by done.
      case_bool_decide as Hocs; [by rewrite Hocs | by destruct ocs].
    + intros coll Hin. rewrite bool_decide_eq_false_2; [done|].
      intros Hu. apply Hex, Exists_exists. eauto.
Qed.

(** X1.  The outcome of the monitor path on a sequence of collections is
    fixed by the collections alone: with an Updated Input collection it is
    the configuration error when a kind has more than one collection,
    [IndexError] when there is no Output collection, and otherwise
    [AttributeError]; with no Updated Input collection it is [None] when
    there is no Output collection and [AttributeError] otherwise.  The log
    of writes is as it was. *)
Theorem monitor_path_outcome transform v colls log :
  transform !! "transform_id" = Some v →
  gc log v = FList colls →
  process_monitor_transform gc gcs transform log = (monitor_outcome colls, log).
Proof. apply process_monitor_transform_list. Qed.

(** X2.  Whatever the transform and whatever the gateway answers, the
    monitor path makes no write, and when it returns it returns [None]:
    no run of it hands a transform to [finish_monitor_transforms]. *)
Theorem monitor_path_is_inert transform log :
  (process_monitor_transform gc gcs transform log).2 = log
  ∧ ∀ r, (process_monitor_transform gc gcs transform log).1 = inr r → r = None.
Proof.
  destruct (transform !! "transform_id") as [v|] eqn:Hid.
  - destruct (gc log v) as [[|??]|colls] eqn:Hgc.
    + unfold process_monitor_transform, getitem. rewrite Hid.
      unfold mbind, M_bind, mret, M_ret, read. rewrite Hgc. cbn.
      split; [done|]. by intros r [= <-].
    + unfold process_monitor_transform, getitem. rewrite Hid.
      unfold mbind, M_bind, mret, M_ret, read. rewrite Hgc. by cbn.
    + rewrite (process_monitor_transform_list _ v colls) by done.
      split; [done|]. simpl. unfold monitor_outcome.
      intros r. repeat case_match; try done. by intros [= <-].
  - unfold process_monitor_transform, getitem. rewrite Hid. by cbn.
Qed.
End MonitorMore.

(** ** Further properties of the two steps *)

Section StepsMore.
Variable gcs : list Write → Z → Stats.
Implicit Types (transform : Transform) (ics ocs lcs : list Collection)
  (ic oc : Collection) (log : list Write).

(** X3.  The content-splitting step on an Input collection whose status
    is Update, with one Output collection: it registers the new contents,
    then sets the Input collection to Closed if its [ddm_status] is
    ['closed'] and to Open otherwise, then sets the Output collection to
    Updated, in this order.  If the metadata has no [ddm_status] the step
    raises [KeyError] after the contents have been registered, and neither
    collection is updated. *)
Theorem fill_on_update transform ic oc lcs log :
  (length lcs ≤ 1)%nat →
  coll_status ic = CollectionStatus.Update →
  fill_new_output_contents transform [ic] [oc] lcs log
  = match coll_metadata ic !! "ddm_status" with
    | Some ddm_status =>
        (inr tt,
         log ++ [AddContents None;
                 UpdateCollection (coll_id ic)
                   (if bool_decide (ddm_status = "closed")
                    then CollectionStatus.Closed else CollectionStatus.Open);
                 UpdateCollection (coll_id oc) CollectionStatus.Updated])
    | None => (inl (KeyError (VStr "ddm_status")), log ++ [AddContents None])
    end.
Proof.
  intros Hl Hst. unfold fill_new_output_contents, more_than_one.
  rewrite (bool_decide_eq_false_2 (1 < length lcs)%nat) by lia.
  rewrite !(bool_decide_eq_false_2 (1 < length [_])%nat) by (simpl; lia).
  cbn [orb index0]. unfold mbind, M_bind, mret, M_ret.
  rewrite bool_decide_eq_true_2 by done.
  unfold add_contents, update_collection, emit, getitem, get_new_output_contents.
  destruct (coll_metadata ic !! "ddm_status") as [ddm|]; [|done].
  cbn. by rewrite <- !app_assoc.
Qed.

(** A run of the aggregator that returns has passed the guard with
    exactly one Output collection. *)
Lemma check_returns_inv transform ics ocs lcs log transform' log' :
  check_output_contents gcs transform ics ocs lcs log = (inr transform', log') →
  ∃ oc, ocs = [oc] ∧ more_than_one ics [oc] lcs = false.
Proof.
  unfold check_output_contents.
  destruct (more_than_one ics ocs lcs) eqn:Hmore; [done|].
  destruct ocs as [|oc [|??]]; [done | eauto |].
  apply more_than_one_false_inv in Hmore. simpl in Hmore. lia.
Qed.

Lemma set_status_inv transform status contents log transform' log' :
  set_status transform status contents log = (inr transform', log') →
  ∃ metadata,
    transform !! "transform_metadata" = Some (VDict metadata)
    ∧ transform' = transitioned transform metadata status contents
    ∧ log' = log.
Proof.
  unfold set_status, set_status_statistics. rewrite lookup_insert_ne by done.
  destruct (transform !! "transform_metadata") as [[| | | |metadata]|]; try done.
  intros [= <- <-]. eauto.
Qed.

(** X4.  When the aggregator returns, the returned transform differs from
    the one passed in at most in [status] and in the [status_statistics]
    entry of [transform_metadata]: every other key, [transform_id]
    included, and every other metadata entry has the value it had. *)
Theorem check_keeps_other_fields transform ics ocs lcs log transform' log' :
  check_output_contents gcs transform ics ocs lcs log = (inr transform', log') →
  (∀ key, key ≠ "status" → key ≠ "transform_metadata" →
          transform' !! key = transform !! key)
  ∧ (transform' !! "transform_metadata" = transform !! "transform_metadata"
     ∨ ∃ metadata metadata',
         transform !! "transform_metadata" = Some (VDict metadata)
         ∧ transform' !! "transform_metadata" = Some (VDict metadata')
         ∧ ∀ key, key ≠ "status_statistics" → metadata' !! key = metadata !! key).
Proof.
  intros Hrun. destruct (check_returns_inv _ _ _ _ _ _ _ Hrun) as (oc & -> & Hone).
  rewrite check_output_contents_branch in Hrun by done.
  destruct (branch _) as [status coll|]; [|injection Hrun as <- <-; eauto].
  apply set_status_inv in Hrun as (metadata & Hm & -> & _).
  split.
  - intros key H1 H2. unfold transitioned. by rewrite !lookup_insert_ne.
  - right. exists metadata, (<["status_statistics" := MStats (gcs log (coll_id oc))]> metadata).
    split; [done|]. split; [by rewrite transitioned_metadata|].
    intros key Hkey. by rewrite lookup_insert_ne.
Qed.

(** X5.  On a transform without [transform_metadata] every transition
    ends in [KeyError], and for Finished, Failed and SubFinished the new
    status of the output collection has been written by then: the
    collection is updated although the transform is not. *)
Theorem check_without_metadata transform ics oc lcs log :
  more_than_one ics [oc] lcs = false →
  transform !! "transform_metadata" = None →
  dict_wf (gcs log (coll_id oc)) →
  check_output_contents gcs transform ics [oc] lcs log
  = match aggregator_on_keys (list_to_set (keys (gcs log (coll_id oc)))) with
    | Transition _ coll =>
        (inl (KeyError (VStr "transform_metadata")),
         log ++ collection_write (coll_id oc) coll)
    | NoTransition => (inr transform, log)
    end.
Proof.
  intros Hone Hm Hwf. rewrite check_output_contents_branch by done.
  rewrite branch_on_keys by done.
  case_match; [|done].
  unfold set_status, set_status_statistics.
  rewrite lookup_insert_ne by done. by rewrite Hm.
Qed.
End StepsMore.

(** ** Further properties of the draining of monitor results *)

Section FinishMore.
Implicit Types (transform row : Transform) (log : list Write).

Lemma for_each_app {A} (l1 l2 : list A) (body : A → M unit) log :
  for_each (l1 ++ l2) body log
  = match for_each l1 body log with
    | (inl e, log') => (inl e, log')
    | (inr _, log') => for_each l2 body log'
    end.
Proof.
  revert log. induction l1 as [|x l1 IH]; intros log; [done|].
  cbn [app for_each]. unfold mbind, M_bind.
  destruct (body x log) as [[e|[]] log1]; [done|]. apply IH.
Qed.

(** X6.  Draining stops at the first queued item that is [None] or has no
    [transform_id]: it raises [TypeError], respectively [KeyError]; the
    results queued before it have been written, the ones queued after it
    have not. *)
Theorem finish_monitor_stops_at_bad_result (results : list Transform)
    (item : option Transform) (later : list (option Transform)) e log :
  Forall (λ transform, is_Some (transform !! "transform_id")) results →
  bad_result item = Some e →
  finish_monitor_transforms ((Some <$> results) ++ item :: later) log
  = (inl e, log ++ (monitor_write <$> results)).
Proof.
  intros Hall Hbad. unfold finish_monitor_transforms. rewrite for_each_app.
  pose proof (finish_monitor_transforms_log results log Hall) as Hlog.
  unfold finish_monitor_transforms in Hlog. rewrite Hlog.
  cbn [for_each]. unfold mbind, M_bind.
  destruct item as [transform|]; simpl in Hbad.
  - unfold getitem. destruct (transform !! "transform_id"); [done|].
    by injection Hbad as <-.
  - by injection Hbad as <-.
Qed.

(** X7.  The aggregator and the draining compose: for a transform that
    carries its id and its metadata, a transition decided by the
    aggregator, once the returned transform is drained, is one
    [update_transform] that leaves the persisted row with the new status
    and with the statistics in its metadata, every other field of the row
    as it was. *)
Theorem aggregate_then_finish (gcs : list Write → Z → Stats) transform metadata tid
    ics oc lcs log status coll :
  more_than_one ics [oc] lcs = false →
  transform !! "transform_id" = Some (VInt tid) →
  transform !! "transform_metadata" = Some (VDict metadata) →
  dict_wf (gcs log (coll_id oc)) →
  aggregator_on_keys (list_to_set (keys (gcs log (coll_id oc)))) = Transition status coll →
  ∃ transform' log',
    check_output_contents gcs transform ics [oc] lcs log = (inr transform', log')
    ∧ finish_monitor_transforms [Some transform'] log'
      = (inr tt, log ++ collection_write (coll_id oc) coll ++ [monitor_write transform'])
    ∧ ∀ table row,
        table !! tid = Some row →
        ∃ row',
          Gateway.apply_write table (monitor_write transform') !! tid = Some row'
          ∧ row' !! "status" = Some (VStatus status)
          ∧ row' !! "transform_metadata"
            = Some (VDict (<["status_statistics" := MStats (gcs log (coll_id oc))]> metadata))
          ∧ ∀ key, key ≠ "status" → key ≠ "transform_metadata" →
                   row' !! key = row !! key.
Proof.
  intros Hone Hid Hm Hwf Hdec.
  rewrite (check_output_contents_on_keys _ _ metadata) by done. rewrite Hdec.
  set (transform' := transitioned transform metadata status (gcs log (coll_id oc))).
  assert (transform' !! "transform_id" = Some (VInt tid)) as Hid'.
  { unfold transform', transitioned. by rewrite !lookup_insert_ne. }
  exists transform', (log ++ collection_write (coll_id oc) coll).
  split; [done|]. split.
  - rewrite (finish_monitor_transforms_log [transform']).
    + by rewrite <- app_assoc.
    + constructor; [by rewrite Hid' | constructor].
  - intros table row Hrow. exists (monitor_parameter transform' ∪ row).
    split; [by apply apply_monitor_write|].
    split; [|split].
    + apply lookup_union_Some_l. rewrite monitor_parameter_lookup.
      case_decide; [apply transitioned_status | tauto].
    + apply lookup_union_Some_l. rewrite monitor_parameter_lookup.
      case_decide; [apply transitioned_metadata | tauto].
    + intros key H1 H2. rewrite lookup_union_r; [done|].
      rewrite monitor_parameter_lookup. case_decide; [tauto | done].
Qed.
End FinishMore.

(** ** Further properties of the new-transform path *)

Section NewTransformMore.
Variable gc : list Write → Val → Fetched.
Variable Outputs : Type.
Variable gto : Transform → list Collection → M Outputs.
Implicit Types (transform : Transform) (log : list Write).

Lemma for_fold_app {A S} (l1 l2 : list A) (body : S → A → M S) st log :
  for_fold (l1 ++ l2) body st log
  = match for_fold l1 body st log with
    | (inl e, log') => (inl e, log')
    | (inr st', log') => for_fold l2 body st' log'
    end.
Proof.
  revert st log. induction l1 as [|x l1 IH]; intros st log; [done|].
  cbn [app for_fold]. unfold mbind, M_bind.
  destruct (body st x log) as [[e|st1] log1]; [done|]. apply IH.
Qed.

(** A loop whose body assigns one value on the elements it selects and
    leaves the state alone on the others ends with that value, as soon as
    an element is selected. *)
Lemma for_fold_assign {A S} (P : A → Prop) `{!∀ x, Decision (P x)} (c : S)
    (l : list A) (body : S → A → M S) st log :
  (∀ st x, x ∈ l → body st x log = (inr (if decide (P x) then c else st), log)) →
  (st = c ∨ ∃ x, x ∈ l ∧ P x) →
  for_fold l body st log = (inr c, log).
Proof.
  revert st. induction l as [|x l IH]; intros st Hbody Hsel.
  - destruct Hsel as [-> | (x & Hx & _)]; [done | by apply elem_of_nil in Hx].
  - cbn [for_fold]. unfold mbind, M_bind. rewrite Hbody by left.
    apply IH.
    + intros st' y Hy. apply Hbody. by right.
    + destruct (decide (P x)) as [HP | HP]; [by left|].
      destruct Hsel as [-> | (y & Hy & HPy)]; [by left|].
      apply elem_of_cons in Hy as [-> | Hy]; [done | right; eauto].
Qed.

Lemma assoc_unique {V} (d : list (Z * V)) key v1 v2 :
  NoDup d.*1 → (key, v1) ∈ d → (key, v2) ∈ d → v1 = v2.
Proof.
  induction d as [|[k v] d IH]; intros Hnd H1 H2; [by apply elem_of_nil in H1|].
  cbn in Hnd. apply NoDup_cons in Hnd as [Hk Hnd].
  apply elem_of_cons in H1 as [H1 | H1]; apply elem_of_cons in H2 as [H2 | H2];
    simplify_eq; try done.
  - destruct Hk. apply list_elem_of_fmap. by exists (k, v2).
  - destruct Hk. apply list_elem_of_fmap. by exists (k, v1).
  - by apply IH.
Qed.

Lemma getitem_int_unique {V} (d : list (Z * V)) key v log :
  NoDup d.*1 → (key, v) ∈ d → getitem_int d key log = (inr v, log).
Proof.
  intros Hnd Hin.
  destruct (getitem_int_elem d key log) as (v' & -> & Hin').
  { apply list_elem_of_fmap. by exists (key, v). }
  by rewrite (assoc_unique d key v v').
Qed.

(** X8.  When no request id among the keys of the fetched dictionary
    equals the transform's id, and always when the gateway answers with a
    sequence, the search sets neither variable and the path returns the
    empty dictionary without a write, whatever [input_collection_changed]
    says and whether or not the transform carries metadata. *)
Theorem new_path_without_matching_request transform v log :
  transform !! "transform_id" = Some v →
  (∀ d, gc log v = FNested d → Forall (λ request_id, eq_int request_id v = false) d.*1) →
  process_new_transform gc Outputs gto transform log = (inr EmptyDict, log).
Proof.
  intros Hid Hkeys.
  assert (find_collections transform (gc log v) log = (inr ([], None), log)) as Hfind.
  { unfold find_collections. destruct (gc log v) as [d | l] eqn:Hgc.
    - specialize (Hkeys d eq_refl). rewrite Forall_forall in Hkeys.
      destruct (for_fold_invariant (λ st, st = ([], None)) d.*1
                  (λ st request_id,
                     for_fold d.*1
                       (λ st transform_id,
                          tid ← getitem transform "transform_id";
                          if eq_int transform_id tid
                          then by_transform ← getitem_int d request_id;
                               collections ← getitem_int by_transform transform_id;
                               mret (collections, Some transform)
                          else mret st) st) ([], None) log) as (st & -> & ->); [done | | done].
      intros st request_id _ ->.
      apply for_fold_invariant; [done|].
      intros st transform_id Hin ->. unfold getitem. rewrite Hid.
      unfold mbind, M_bind, mret, M_ret. rewrite (Hkeys _ Hin). eauto.
    - destruct (for_fold_invariant (λ st, st = ([], None)) l
                  (λ (st : list Collection * option Transform) (_ : Collection),
                     for_fold l
                       (λ st _, tid ← getitem transform "transform_id"; mret st) st)
                  ([], None) log) as (st & -> & ->); [done | | done].
      intros st _ _ ->.
      apply for_fold_invariant; [done|].
      intros st _ _ ->. unfold getitem. rewrite Hid. eauto. }
  unfold process_new_transform, getitem. rewrite Hid.
  unfold mbind at 1, M_bind at 1, mret at 1, M_ret at 1.
  unfold mbind at 1, M_bind at 1, read.
  unfold mbind at 1, M_bind at 1. by rewrite Hfind.
Qed.

End NewTransformMore.

(** ** The further properties at sample inputs *)

Section MoreSamples.
Import Sample Fixture.

Lemma monitor_path_outcome_witness :
  (transform TransformStatus.Transforming !! "transform_id" = Some (VInt 7)
   ∧ collections [input CollectionStatus.Updated; output CollectionStatus.New] [] (VInt 7)
     = FList [input CollectionStatus.Updated; output CollectionStatus.New])
  ∧ process_monitor_transform
      (collections [input CollectionStatus.Updated; output CollectionStatus.New])
      (statistics available) (transform TransformStatus.Transforming) []
    = (inl (AttributeError "Updated1"), []).
Proof.
  split; [split; reflexivity|].
  exact (monitor_path_outcome
           (collections [input CollectionStatus.Updated; output CollectionStatus.New])
           (statistics available) (transform TransformStatus.Transforming) (VInt 7)
           [input CollectionStatus.Updated; output CollectionStatus.New] []
           eq_refl eq_refl).
Defined.

Lemma fill_on_update_witness :
  ((length [log_collection] ≤ 1)%nat
   ∧ coll_status (input CollectionStatus.Update) = CollectionStatus.Update)
  ∧ fill_new_output_contents (transform TransformStatus.Transforming)
      [input CollectionStatus.Update] [output CollectionStatus.New] [log_collection] []
    = (inr tt, [AddContents None;
                UpdateCollection 1 CollectionStatus.Closed;
                UpdateCollection 2 CollectionStatus.Updated]).
Proof.
  assert (length [log_collection] ≤ 1)%nat as Hl by (simpl; lia).
  split; [split; [exact Hl | reflexivity]|].
  exact (fill_on_update (transform TransformStatus.Transforming)
           (input CollectionStatus.Update) (output CollectionStatus.New)
           [log_collection] [] Hl eq_refl).
Defined.

Lemma check_keeps_other_fields_witness :
  check_output_contents (statistics available) (transform TransformStatus.Transforming)
    [] [output CollectionStatus.Updated] [] []
  = (inr (transitioned (transform TransformStatus.Transforming) metadata
            TransformStatus.Finished available),
     [UpdateCollection 2 CollectionStatus.Closed])
  ∧ transitioned (transform TransformStatus.Transforming) metadata
      TransformStatus.Finished available !! "transform_id"
    = transform TransformStatus.Transforming !! "transform_id".
Proof.
  assert (check_output_contents (statistics available) (transform TransformStatus.Transforming)
            [] [output CollectionStatus.Updated] [] []
          = (inr (transitioned (transform TransformStatus.Transforming) metadata
                    TransformStatus.Finished available),
             [UpdateCollection 2 CollectionStatus.Closed])) as Hrun
    by (vm_compute; reflexivity).
  split; [exact Hrun|].
  apply (proj1 (check_keeps_other_fields _ _ _ _ _ _ _ _ Hrun)); discriminate.
Defined.

Lemma check_without_metadata_witness :
  (more_than_one [] [output CollectionStatus.Updated] [] = false
   ∧ (<["transform_id" := VInt 7]> ∅ : Transform) !! "transform_metadata" = None
   ∧ dict_wf (statistics available [] (coll_id (output CollectionStatus.Updated))))
  ∧ check_output_contents (statistics available) (<["transform_id" := VInt 7]> ∅)
      [] [output CollectionStatus.Updated] [] []
    = (inl (KeyError (VStr "transform_metadata")),
       [UpdateCollection 2 CollectionStatus.Closed]).
Proof.
  assert (dict_wf (statistics available [] (coll_id (output CollectionStatus.Updated)))) as Hwf
    by (apply (bool_decide_unpack _); vm_compute; exact I).
  split; [split; [reflexivity | split; [reflexivity | exact Hwf]]|].
  exact (check_without_metadata (statistics available) (<["transform_id" := VInt 7]> ∅)
           [] (output CollectionStatus.Updated) [] [] eq_refl eq_refl Hwf).
Defined.

Lemma finish_monitor_stops_at_bad_result_witness :
  (Forall (λ t : Transform, is_Some (t !! "transform_id")) [transform TransformStatus.Finished]
   ∧ bad_result None = Some TypeError)
  ∧ finish_monitor_transforms
      ((Some <$> [transform TransformStatus.Finished])
         ++ None :: [Some (transform TransformStatus.Failed)]) []
    = (inl TypeError, [] ++ (monitor_write <$> [transform TransformStatus.Finished])).
Proof.
  assert (Forall (λ t : Transform, is_Some (t !! "transform_id"))
                 [transform TransformStatus.Finished]) as Hall.
  { constructor; [|constructor]. exists (VInt 7). reflexivity. }
  split; [split; [exact Hall | reflexivity]|].
  exact (finish_monitor_stops_at_bad_result [transform TransformStatus.Finished] None
           [Some (transform TransformStatus.Failed)] TypeError [] Hall eq_refl).
Defined.

Lemma aggregate_then_finish_witness :
  (more_than_one [] [output CollectionStatus.Updated] [] = false
   ∧ transform TransformStatus.Transforming !! "transform_id" = Some (VInt 7)
   ∧ transform TransformStatus.Transforming !! "transform_metadata" = Some (VDict metadata)
   ∧ dict_wf (statistics available [] (coll_id (output CollectionStatus.Updated)))
   ∧ aggregator_on_keys
       (list_to_set (keys (statistics available [] (coll_id (output CollectionStatus.Updated)))))
     = Transition TransformStatus.Finished (Some CollectionStatus.Closed))
  ∧ ∃ transform' log',
      check_output_contents (statistics available) (transform TransformStatus.Transforming)
        [] [output CollectionStatus.Updated] [] []
      = (inr transform', log')
      ∧ finish_monitor_transforms [Some transform'] log'
        = (inr tt, [] ++ collection_write (coll_id (output CollectionStatus.Updated))
                           (Some CollectionStatus.Closed) ++ [monitor_write transform'])
      ∧ ∀ table row,
          table !! 7 = Some row →
          ∃ row',
            Gateway.apply_write table (monitor_write transform') !! 7 = Some row'
            ∧ row' !! "status" = Some (VStatus TransformStatus.Finished)
            ∧ row' !! "transform_metadata"
              = Some (VDict (<["status_statistics" :=
                                 MStats (statistics available []
                                           (coll_id (output CollectionStatus.Updated)))]> metadata))
            ∧ ∀ key, key ≠ "status" → key ≠ "transform_metadata" →
                     row' !! key = row !! key.
Proof.
  assert (dict_wf (statistics available [] (coll_id (output CollectionStatus.Updated)))) as Hwf
    by (apply (bool_decide_unpack _); vm_compute; exact I).
  assert (aggregator_on_keys
            (list_to_set (keys (statistics available [] (coll_id (output CollectionStatus.Updated)))))
          = Transition TransformStatus.Finished (Some CollectionStatus.Closed)) as Hdec
    by (vm_compute; reflexivity).
  split.
  - split; [reflexivity|]. split; [reflexivity|]. split; [reflexivity|].
    split; [exact Hwf | exact Hdec].
  - exact (aggregate_then_finish (statistics available) (transform TransformStatus.Transforming)
             metadata 7 [] (output CollectionStatus.Updated) [] []
             TransformStatus.Finished (Some CollectionStatus.Closed)
             eq_refl eq_refl eq_refl Hwf Hdec).
Defined.

Lemma new_path_without_matching_request_witness :
  (transform TransformStatus.Ready !! "transform_id" = Some (VInt 7)
    ∧ ∀ d, other_request [input CollectionStatus.Open] [] (VInt 7) = FNested d →
          Forall (λ request_id, eq_int request_id (VInt 7) = false) d.*1)
  ∧ process_new_transform (other_request [input CollectionStatus.Open])
      unit (λ _ _, mret tt) (changed_transform TransformStatus.Ready) []
    = (inr EmptyDict, []).
Proof.
  assert (∀ d, other_request [input CollectionStatus.Open] [] (VInt 7) = FNested d →
               Forall (λ request_id, eq_int request_id (VInt 7) = false) d.*1) as Hkeys.
  { intros d [= <-]. repeat constructor. }
  split; [split; [reflexivity | exact Hkeys]|].
  exact (new_path_without_matching_request _ unit _ (changed_transform TransformStatus.Ready)
           (VInt 7) [] eq_refl Hkeys).
Defined.
End MoreSamples.

(** ** The retry predicate of [orm/base/session.py] *)

Section Find.
Import Session.
Implicit Types (s sub before after : string).

Lemma append_nil s : String.append "" s = s.
Proof. reflexivity. Qed.

Lemma append_cons c s1 s2 :
  String.append (String c s1) s2 = String c (String.append s1 s2).
Proof. reflexivity. Qed.

Lemma append_assoc s1 s2 s3 :
  String.append (String.append s1 s2) s3 = String.append s1 (String.append s2 s3).
Proof.
  induction s1 as [|c s1 IH]; [done|]. by rewrite !append_cons, IH.
Qed.

Lemma prefix_substring sub after :
  substring 0 (String.length sub) (String.append sub after) = sub.
Proof.
  induction sub as [|c sub IH]; [by destruct after|].
  rewrite append_cons. cbn [String.length substring]. by rewrite IH.
Qed.

Lemma substring_prefix sub : ∀ s,
  substring 0 (String.length sub) s = sub → ∃ after, s = String.append sub after.
Proof.
  induction sub as [|c sub IH]; intros s Hs; [by exists s|].
  destruct s as [|c' s]; [done|].
  cbn [String.length substring] in Hs. injection Hs as -> Hs.
  destruct (IH s Hs) as [after ->]. by exists after.
Qed.

Lemma substring_occurs sub s m :
  substring m (String.length sub) s = sub → occurs_in sub s.
Proof.
  revert s. induction m as [|m IH]; intros s Hs.
  - destruct (substring_prefix sub s) as [after ->]; [done|]. by exists "", after.
  - destruct s as [|c s].
    + cbn [substring] in Hs. rewrite <- Hs. by exists "", "".
    + destruct (IH s) as (before & after & ->); [exact Hs|].
      by exists (String c before), after.
Qed.

Lemma occurs_substring before sub after :
  substring (String.length before) (String.length sub)
    (String.append before (String.append sub after)) = sub.
Proof.
  induction before as [|c before IH]; [exact (prefix_substring sub after)|].
  rewrite append_cons. exact IH.
Qed.

(** [find] answers -1 exactly when the pattern does not occur. *)
Lemma find_occurs s sub : find s sub ≠ -1 ↔ occurs_in sub s.
Proof.
  unfold find. split.
  - destruct (index 0 sub s) as [m|] eqn:Hindex; [|done].
    intros _. eapply substring_occurs, index_correct1, Hindex.
  - intros (before & after & ->).
    destruct (index 0 sub _) as [m|] eqn:Hindex; [lia|].
    destruct sub as [|c sub].
    + revert Hindex. by destruct (String.append before (String.append "" after)).
    + exfalso.
      apply (index_correct3 _ (String.length before)) in Hindex; [|done|lia].
      apply Hindex, occurs_substring.
Qed.

Lemma occurs_in_trans s1 s2 s3 : occurs_in s1 s2 → occurs_in s2 s3 → occurs_in s1 s3.
Proof.
  intros (b1 & a1 & ->) (b2 & a2 & ->).
  exists (String.append b2 b1), (String.append a1 a2).
  by rewrite !append_assoc.
Qed.
End Find.

Section RetryPredicate.
Import Session.
Implicit Types (exception : DbError) (message : string).

Lemma find_err_code_message message rest codes :
  find_err_code (AStr message :: rest) codes
  = inr (bool_decide (Exists (λ err_code, find message err_code ≠ -1) codes)).
Proof.
  induction codes as [|err_code codes IH]; cbn [find_err_code].
  - by rewrite bool_decide_eq_false_2 by (by intros ?%Exists_nil).
  - destruct (decide (find message err_code ≠ -1)) as [Hfind | Hfind].
    + rewrite (bool_decide_eq_true_2 _ Hfind).
      by rewrite bool_decide_eq_true_2 by (apply Exists_cons; by left).
    + rewrite (bool_decide_eq_false_2 _ Hfind), IH. f_equal.
      apply bool_decide_ext. rewrite Exists_cons. tauto.
Qed.

Lemma closed_occurs_in_server_closed :
  occurs_in "closed the connection" "server closed the connection unexpectedly".
Proof. by exists "server ", " unexpectedly". Qed.

(** X10.  For an exception whose first argument is a string, the
    predicate answers without raising, and it answers [True] exactly when
    the exception is an [OperationalError] whose message contains one of
    the nine connection error codes, or a [DatabaseException] whose
    message contains ['closed the connection']: the longer pattern of the
    second list adds nothing to the shorter one. *)
Theorem retry_on_string_message exception message rest :
  args exception = AStr message :: rest →
  ∃ answer,
    retry_if_db_connection_error exception = inr answer
    ∧ (answer = true ↔
         (is_OperationalError exception = true
          ∧ ∃ err_code, err_code ∈ operational_err_codes ∧ occurs_in err_code message)
         ∨ (is_DatabaseException exception = true
            ∧ occurs_in "closed the connection" message)).
Proof.
  intros Hargs. unfold retry_if_db_connection_error. rewrite Hargs.
  rewrite !find_err_code_message.
  assert (Exists (λ err_code, find message err_code ≠ -1) operational_err_codes
          ↔ ∃ err_code, err_code ∈ operational_err_codes ∧ occurs_in err_code message) as Hop.
  { rewrite Exists_exists. by setoid_rewrite find_occurs. }
  assert (Exists (λ err_code, find message err_code ≠ -1) database_err_codes
          ↔ occurs_in "closed the connection" message) as Hdb.
  { unfold database_err_codes. rewrite !Exists_cons, Exists_nil, !find_occurs.
    split; [|tauto].
    intros [Hlong | [Hshort | []]]; [|done].
    eapply occurs_in_trans; [apply closed_occurs_in_server_closed | done]. }
  destruct (is_OperationalError exception), (is_DatabaseException exception);
    repeat case_bool_decide; eexists; (split; [reflexivity|]); naive_solver.
Qed.

End RetryPredicate.

(** ** The session decorators of [orm/base/session.py] *)

Section DecoratorProperties.
Import Session.
Context {A Exn : Type}.
Variable is_TimeoutError is_DatabaseError : Exn → bool.
Variable str : Exn → string.
Variable DatabaseException : string → Exn.
Variable IDDSException : string → Exn.

Abbreviation transactional := (transactional_session A Exn is_TimeoutError is_DatabaseError
                             str DatabaseException).
Abbreviation reading := (read_session A Exn is_TimeoutError is_DatabaseError
                       str DatabaseException IDDSException).



End DecoratorProperties.

(** ** The conversion of old requests of [rest/v1/utils.py] *)

Section ConvertProperties.
Import Request.
Context {Wf Work : Type}.
Variable value : RequestType.t → Z.
Variable ATLASStageinWork : StageinArgs Wf → Work.
Variable ATLASHPOWork : HPOArgs Wf → Work.
Variable Workflow : Wf.
Variable set_workload_id : Wf → Val Wf → Wf.
Variable add_work : Wf → Work → Wf.
Variable get_workload_id : Wf → Atom Wf.
Variable get_primary_initial_collection : Wf → option (gmap string (Atom Wf)).

Abbreviation convert :=
  (convert_old_req_2_workflow_req Wf Work value ATLASStageinWork ATLASHPOWork Workflow
     set_workload_id add_work get_workload_id get_primary_initial_collection).
Abbreviation convert_hpo :=
  (convert_hpo_request_metadata_to_workflow Wf Work ATLASHPOWork Workflow
     set_workload_id add_work).
Abbreviation with_workflow := (set_workflow_fields Wf get_workload_id).
Abbreviation stagein_workflow :=
  (Request.stagein_workflow Wf Work ATLASStageinWork Workflow set_workload_id add_work).

Implicit Types (d : gmap string (Val Wf)) (data : option (gmap string (Val Wf))).

Ltac try_inv :=
  unfold mbind, Try_bind, mret, Try_ret, throw, item in *;
  repeat (case_match; simplify_eq/=; try done).

(** The fields of a converted request. *)
Lemma with_workflow_fields d wf :
  with_workflow d wf !! "request_type" = Some (Atomic (AType RequestType.Workflow))
  ∧ with_workflow d wf !! "transform_tag" = Some (Atomic (AStr "workflow"))
  ∧ with_workflow d wf !! "status" = Some (Atomic AStatusNew)
  ∧ with_workflow d wf !! "workload_id" = Some (Atomic (get_workload_id wf))
  ∧ with_workflow d wf !! "request_metadata"
    = Some (Dict (<["workflow" := AWorkflow wf]>
                    (<["workload_id" := get_workload_id wf]> ∅))).
Proof. unfold set_workflow_fields. repeat split; by simplify_map_eq. Qed.

Lemma with_workflow_other d wf key :
  key ∉ ["request_type"; "transform_tag"; "status"; "workload_id"; "request_metadata"] →
  with_workflow d wf !! key = d !! key.
Proof.
  intros Hkey. unfold set_workflow_fields.
  rewrite !lookup_insert_ne; [done | | | | |]; intros <-; set_solver.
Qed.

(** What the conversion returns: its argument, or a request with the
    workflow fields. *)
Lemma convert_returns data r :
  convert data = inr r →
  r = data
  ∨ ∃ d d0 wf, data = Some d ∧ r = Some (with_workflow d0 wf)
               ∧ (∀ key, key ≠ "scope" → key ≠ "name" → d0 !! key = d !! key)
               ∧ (d0 = d ∨ ¬ is_member_or_value value RequestType.StageIn
                               (default (Atomic ANone) (d !! "request_type")) = true).
Proof.
  unfold convert_old_req_2_workflow_req. destruct data as [d|]; [|intros [= <-]; by left].
  case_match; [intros [= <-]; by left|].
  unfold mbind at 1, Try_bind at 1, item at 1.
  destruct (d !! "request_type") as [request_type|] eqn:Htype; [|done].
  unfold mret at 1, Try_ret at 1.
  case_match; [intros [= <-]; by left|].
  unfold mbind at 1, Try_bind at 1.
  destruct (choose_workload_id d) as [e|workload_id]; [done|].
  destruct (is_member_or_value value RequestType.StageIn request_type) eqn:Hstagein.
  - intros Hrun. try_inv. right. do 3 eexists.
    split; [reflexivity|]. split; [reflexivity|]. split; [done | by left].
  - case_match; [|intros [= <-]; by left].
    intros Hrun. right. try_inv.
    all: do 3 eexists; split; [reflexivity|]; split; [reflexivity|]; split;
      [intros key ??; by rewrite ?lookup_insert_ne
      |right; rewrite Htype; simpl; by rewrite Hstagein].
Qed.

(** X15.  The conversion is idempotent: converting what it has returned
    returns the same request. *)
Theorem convert_is_idempotent data r :
  convert data = inr r → convert r = inr r.
Proof.
  intros Hrun.
  destruct (convert_returns _ _ Hrun) as [-> | (d & d0 & wf & -> & -> & _)]; [done|].
  unfold convert_old_req_2_workflow_req.
  rewrite bool_decide_eq_true_2.
  - cbn [negb]. unfold mbind, Try_bind, item.
    by rewrite (proj1 (with_workflow_fields d0 wf)).
  - intros Hsize. apply map_size_empty_inv in Hsize.
    pose proof (proj1 (with_workflow_fields d0 wf)) as Hf. by rewrite Hsize in Hf.
Qed.

Lemma convert_kind_returns d request_type r :
  d !! "request_type" = Some request_type →
  is_member RequestType.Workflow request_type = false →
  is_member_or_value value RequestType.StageIn request_type
  || is_member_or_value value RequestType.HyperParameterOpt request_type = true →
  convert (Some d) = inr r →
  ∃ d0 wf, r = Some (with_workflow d0 wf)
           ∧ (∀ key, key ≠ "scope" → key ≠ "name" → d0 !! key = d !! key)
           ∧ (is_member_or_value value RequestType.StageIn request_type = true → d0 = d).
Proof.
  intros Htype Hnot Hkind. unfold convert_old_req_2_workflow_req.
  case_match.
  { apply negb_true_iff, bool_decide_eq_false in H.
    assert (d = ∅) as -> by (apply map_size_empty_inv; lia). done. }
  unfold mbind at 1, Try_bind at 1, item at 1. rewrite Htype.
  unfold mret at 1, Try_ret at 1. rewrite Hnot.
  unfold mbind at 1, Try_bind at 1.
  destruct (choose_workload_id d) as [e|workload_id]; [done|].
  destruct (is_member_or_value value RequestType.StageIn request_type) eqn:Hstagein.
  - intros Hrun. try_inv. do 2 eexists. split; [reflexivity|]. by split.
  - simpl in Hkind. rewrite Hkind. intros Hrun. try_inv.
    all: do 2 eexists; split; [reflexivity|]; split;
      [intros key ??; by rewrite ?lookup_insert_ne | done].
Qed.

(** X16.  A StageIn or HyperParameterOpt request that the conversion
    returns has become a Workflow request with tag ['workflow'] and status
    New, whose [workload_id] and whose [request_metadata] both carry the
    workload id of the workflow stored in [request_metadata]; every key
    other than these five, [scope] and [name] keeps its value, and for a
    StageIn request [scope] and [name] keep theirs too. *)
Theorem converted_request d request_type d' :
  d !! "request_type" = Some request_type →
  is_member RequestType.Workflow request_type = false →
  is_member_or_value value RequestType.StageIn request_type
  || is_member_or_value value RequestType.HyperParameterOpt request_type = true →
  convert (Some d) = inr (Some d') →
  (∃ wf,
     d' !! "request_type" = Some (Atomic (AType RequestType.Workflow))
     ∧ d' !! "transform_tag" = Some (Atomic (AStr "workflow"))
     ∧ d' !! "status" = Some (Atomic AStatusNew)
     ∧ d' !! "workload_id" = Some (Atomic (get_workload_id wf))
     ∧ d' !! "request_metadata"
       = Some (Dict (<["workflow" := AWorkflow wf]>
                       (<["workload_id" := get_workload_id wf]> ∅))))
  ∧ (∀ key, key ∉ ["request_type"; "transform_tag"; "status"; "workload_id";
                   "request_metadata"; "scope"; "name"] →
            d' !! key = d !! key)
  ∧ (is_member_or_value value RequestType.StageIn request_type = true →
     d' !! "scope" = d !! "scope" ∧ d' !! "name" = d !! "name").
Proof.
  intros Htype Hnot Hkind Hrun.
  destruct (convert_kind_returns _ _ _ Htype Hnot Hkind Hrun)
    as (d0 & wf & [= ->] & Hframe & Hsame).
  split; [exists wf; apply with_workflow_fields|]. split.
  - intros key Hkey. rewrite with_workflow_other by set_solver.
    apply Hframe; intros ->; set_solver.
  - intros Hs. rewrite (Hsame Hs).
    by rewrite !with_workflow_other by set_solver.
Qed.
(** X17.  A request of a type other than Workflow, StageIn and
    HyperParameterOpt that has no [request_metadata] is returned as it is
    when its [workload_id] is present and true; otherwise the search for a
    workload id raises [KeyError] on [request_metadata], although nothing
    is converted for such a request. *)
Theorem workload_id_shields_request_metadata d request_type :
  d !! "request_type" = Some request_type →
  is_member RequestType.Workflow request_type = false →
  is_member_or_value value RequestType.StageIn request_type = false →
  is_member_or_value value RequestType.HyperParameterOpt request_type = false →
  d !! "request_metadata" = None →
  convert (Some d)
  = if match d !! "workload_id" with Some w => truthy w | None => false end
    then inr (Some d)
    else inl (KeyError (VStr "request_metadata")).
Proof.
  intros Htype Hnot Hs Hh Hmd. unfold convert_old_req_2_workflow_req.
  rewrite bool_decide_eq_true_2.
  - cbn [negb]. unfold mbind at 1, Try_bind at 1, item at 1. rewrite Htype.
    unfold mret at 1, Try_ret at 1. rewrite Hnot.
    unfold choose_workload_id, item. rewrite Hmd.
    unfold mbind, Try_bind, mret, Try_ret, throw.
    destruct (d !! "workload_id") as [w|]; [destruct (truthy w)|]; try done.
    by rewrite Hs, Hh.
  - intros Hsize. apply map_size_empty_inv in Hsize. by rewrite Hsize in Htype.
Qed.

(** X18.  The outcome of the conversion of a StageIn request that has a
    true [workload_id] and a dictionary as [request_metadata]: [KeyError]
    without [scope], [KeyError] without [name], [TypeError] when [name] is
    not a string, and otherwise the request with the workflow fields, for
    the workflow whose stage-in work writes to the collection
    [name + '.idds.stagein'] of the same scope and waits 604800 seconds
    unless the metadata says otherwise. *)
Theorem stagein_conversion_outcome d request_type workload_id m :
  d !! "request_type" = Some request_type →
  is_member RequestType.Workflow request_type = false →
  is_member_or_value value RequestType.StageIn request_type = true →
  d !! "workload_id" = Some workload_id →
  truthy workload_id = true →
  d !! "request_metadata" = Some (Dict m) →
  convert (Some d)
  = match d !! "scope" with
    | None => inl (KeyError (VStr "scope"))
    | Some scope =>
        match d !! "name" with
        | None => inl (KeyError (VStr "name"))
        | Some (Atomic (AStr name)) =>
            inr (Some (with_workflow d (stagein_workflow scope name workload_id m)))
        | Some _ => inl TypeError
        end
    end.
Proof.
  intros Htype Hnot Hs Hw Htruthy Hmd. unfold convert_old_req_2_workflow_req.
  rewrite bool_decide_eq_true_2.
  - cbn [negb]. unfold mbind at 1, Try_bind at 1, item at 1. rewrite Htype.
    unfold mret at 1, Try_ret at 1. rewrite Hnot.
    unfold choose_workload_id. rewrite Hw, Htruthy.
    unfold mbind at 1, Try_bind at 1, mret at 1, Try_ret at 1. rewrite Hs.
    unfold item. rewrite Hmd.
    destruct (d !! "scope") as [scope|]; [|done].
    by destruct (d !! "name") as [[[]|]|].
  - intros Hsize. apply map_size_empty_inv in Hsize. by rewrite Hsize in Htype.
Qed.

(** X19.  The HPO conversion depends on the request metadata through
    the eleven keys of [hpo_keys] only, and not at all on the scope and
    the name it is given: two metadata dictionaries that agree on these
    keys give the same workflow.  A value under any other key, such as
    [num_points_per_generation], has no effect. *)
Theorem hpo_reads_eleven_keys (m m' : gmap string (Atom Wf))
    (scope name scope' name' workload_id : Val Wf) :
  (∀ key, key ∈ hpo_keys → m !! key = m' !! key) →
  convert_hpo scope name workload_id (Dict m)
  = convert_hpo scope' name' workload_id (Dict m').
Proof.
  intros Hkeys. unfold convert_hpo_request_metadata_to_workflow, get.
  unfold mbind, Try_bind, mret, Try_ret.
  rewrite !(Hkeys _) by (unfold hpo_keys; set_solver).
  done.
Qed.

End ConvertProperties.

(** ** The session and conversion properties at sample inputs *)

Section SessionSamples.
Import Session SessionSample.

Lemma retry_on_string_message_witness :
  args gone_away = [AStr "(2006, 'MySQL server has gone away')"]
  ∧ retry_if_db_connection_error gone_away = inr true
  ∧ ∃ answer,
      retry_if_db_connection_error gone_away = inr answer
      ∧ (answer = true ↔
           (is_OperationalError gone_away = true
            ∧ ∃ err_code, err_code ∈ operational_err_codes
                          ∧ occurs_in err_code "(2006, 'MySQL server has gone away')")
           ∨ (is_DatabaseException gone_away = true
              ∧ occurs_in "closed the connection" "(2006, 'MySQL server has gone away')")).
Proof.
  split; [reflexivity|]. split; [vm_compute; reflexivity|].
  exact (retry_on_string_message gone_away _ [] eq_refl).
Defined.

End SessionSamples.

Section RequestSamples.
Import Request RequestSample.

Lemma convert_is_idempotent_witness :
  convert (Some stagein_request)
  = inr (Some (set_workflow_fields Wf get_workload_id stagein_request (20776840, 1%nat)))
  ∧ convert (Some (set_workflow_fields Wf get_workload_id stagein_request (20776840, 1%nat)))
    = inr (Some (set_workflow_fields Wf get_workload_id stagein_request (20776840, 1%nat))).
Proof.
  assert (convert (Some stagein_request)
          = inr (Some (set_workflow_fields Wf get_workload_id stagein_request
                         (20776840, 1%nat)))) as Hrun
    by (vm_compute; reflexivity).
  split; [exact Hrun|].
  exact (convert_is_idempotent value (λ _, tt) (λ _, tt) (0, 0%nat)
           set_workload_id add_work get_workload_id (λ _, None) _ _ Hrun).
Defined.

Lemma converted_request_witness :
  (hpo_request !! "request_type" = Some (Atomic (AInt 2))
   ∧ is_member RequestType.Workflow (Atomic (AInt 2) : Val Wf) = false
   ∧ is_member_or_value value RequestType.StageIn (Atomic (AInt 2) : Val Wf)
     || is_member_or_value value RequestType.HyperParameterOpt (Atomic (AInt 2) : Val Wf)
     = true
   ∧ convert (Some hpo_request)
     = inr (Some (set_workflow_fields Wf get_workload_id hpo_request (20525134, 1%nat))))
  ∧ set_workflow_fields Wf get_workload_id hpo_request (20525134, 1%nat) !! "status"
    = Some (Atomic AStatusNew).
Proof.
  assert (convert (Some hpo_request)
          = inr (Some (set_workflow_fields Wf get_workload_id hpo_request
                         (20525134, 1%nat)))) as Hrun
    by (vm_compute; reflexivity).
  split; [split; [reflexivity | split; [reflexivity | split; [reflexivity | exact Hrun]]]|].
  destruct (proj1 (converted_request value (λ _, tt) (λ _, tt) (0, 0%nat)
                     set_workload_id add_work get_workload_id (λ _, None)
                     hpo_request (Atomic (AInt 2)) _ eq_refl eq_refl eq_refl Hrun))
    as (wf & _ & _ & Hstatus & _).
  exact Hstatus.
Defined.

Lemma workload_id_shields_request_metadata_witness :
  (other_request !! "request_type" = Some (Atomic (AType (RequestType.Other 0)))
   ∧ other_request !! "request_metadata" = None)
  ∧ convert (Some other_request) = inr (Some other_request)
  ∧ convert (Some (delete "workload_id" other_request))
    = inl (KeyError (VStr "request_metadata")).
Proof.
  split; [split; reflexivity|]. split.
  - exact (workload_id_shields_request_metadata value (λ _, tt) (λ _, tt) (0, 0%nat)
             set_workload_id add_work get_workload_id (λ _, None)
             other_request (Atomic (AType (RequestType.Other 0)))
             eq_refl eq_refl eq_refl eq_refl eq_refl).
  - vm_compute; reflexivity.
Defined.

Lemma stagein_conversion_outcome_witness :
  (stagein_request !! "request_type" = Some (Atomic (AType RequestType.StageIn))
   ∧ stagein_request !! "workload_id" = Some (Atomic (AInt 20776840))
   ∧ truthy (Atomic (AInt 20776840) : Val Wf) = true
   ∧ stagein_request !! "request_metadata"
     = Some (Dict (<["src_rse" := AStr "NDGF-T1_DATATAPE"]> ∅)))
  ∧ convert (Some stagein_request)
    = inr (Some (set_workflow_fields Wf get_workload_id stagein_request (20776840, 1%nat)))
  ∧ convert (Some (delete "name" stagein_request)) = inl (KeyError (VStr "name")).
Proof.
  split; [split; [reflexivity | split; [reflexivity | split; reflexivity]]|].
  split.
  - etransitivity.
    { exact (stagein_conversion_outcome value (λ _, tt) (λ _, tt) (0, 0%nat)
               set_workload_id add_work get_workload_id (λ _, None)
               stagein_request (Atomic (AType RequestType.StageIn))
               (Atomic (AInt 20776840)) (<["src_rse" := AStr "NDGF-T1_DATATAPE"]> ∅)
               eq_refl eq_refl eq_refl eq_refl eq_refl eq_refl). }
    vm_compute; reflexivity.
  - vm_compute; reflexivity.
Defined.

Lemma hpo_reads_eleven_keys_witness :
  (∀ key, key ∈ hpo_keys → bayesian !! key = bayesian_old !! key)
  ∧ convert_hpo_request_metadata_to_workflow Wf unit (λ _, tt) (0, 0%nat)
      set_workload_id add_work (Atomic ANone) (Atomic ANone) (Atomic (AInt 5))
      (Dict bayesian)
    = convert_hpo_request_metadata_to_workflow Wf unit (λ _, tt) (0, 0%nat)
        set_workload_id add_work (Atomic (AStr "scope")) (Atomic (AStr "name"))
        (Atomic (AInt 5)) (Dict bayesian_old).
Proof.
  assert (∀ key, key ∈ hpo_keys → bayesian !! key = bayesian_old !! key) as Hkeys.
  { intros key Hkey. unfold bayesian_old. rewrite lookup_insert_ne; [done|].
    intros <-. revert Hkey. unfold hpo_keys. set_solver. }
  split; [exact Hkeys|].
  exact (hpo_reads_eleven_keys (λ _, tt) (0, 0%nat) set_workload_id add_work
           get_workload_id (λ _, None) _ _ _ _ _ _ _ Hkeys).
Defined.

End RequestSamples.
